(** * Cloner.io: the WebsiteCloner page controller

    A shallow embedding of [frontend/src/app/page.tsx]: the component state
    (the [useState] cells), the event handlers ([executeCloning], [resetForm],
    [downloadHtml], the [onChange] handlers of the inputs) and the part of the
    browser they act on (the object-URL store, the network, timers).

    An [async] handler is split at its [await]s: the part up to the first
    [fetch] runs when the handler is called, and each later part runs when the
    matching response is delivered.  The world records which part is
    suspended.

    [openPreview] writes no cell and is modelled by the URL it opens.
    [copyToClipboard] writes only [copySuccess], which no other handler
    reads or writes; it is left out, as is the [console]. *)

From Stdlib Require Import ZArith Ascii.
From stdpp Require Import base strings pretty gmap list.

Local Open Scope Z_scope.

(** ** Strings *)

(** JavaScript strings are modelled by their UTF-8 bytes.  A string used as a
    condition is true exactly when it is not empty. *)
Definition truthy (s : string) : bool :=
  match s with
  | EmptyString => false
  | String _ _ => true
  end.

(** [s.startsWith(p)] *)
Fixpoint startsWith (s p : string) : bool :=
  match p with
  | EmptyString => true
  | String c p' =>
      match s with
      | EmptyString => false
      | String d s' => if decide (c = d) then startsWith s' p' else false
      end
  end.

Fixpoint string_drop (n : nat) (s : string) : string :=
  match n, s with
  | O, _ => s
  | S _, EmptyString => EmptyString
  | S n', String _ s' => string_drop n' s'
  end.

Definition bytes (l : list nat) : string :=
  foldr (fun n s => String (Ascii.ascii_of_nat n) s) EmptyString l.

(** The code points that [String.prototype.trim] removes (ECMAScript
    WhiteSpace and LineTerminator), in UTF-8: TAB, LF, VT, FF, CR, SP, NBSP,
    U+1680, U+2000 to U+200A, U+2028, U+2029, U+202F, U+205F, U+3000 and
    U+FEFF. *)
Definition white_space : list string :=
  [ bytes [9]; bytes [10]; bytes [11]; bytes [12]; bytes [13]; bytes [32];
    bytes [194; 160]; bytes [225; 154; 128] ]%nat
  ++ ((fun k => bytes [226; 128; k]) <$>
        [128; 129; 130; 131; 132; 133; 134; 135; 136; 137; 138])%nat
  ++ [ bytes [226; 128; 168]; bytes [226; 128; 169]; bytes [226; 128; 175];
       bytes [226; 129; 159]; bytes [227; 128; 128]; bytes [239; 187; 191] ]%nat.

(** Removes one leading element of [ws] from [s], if there is one. *)
Fixpoint strip_one (ws : list string) (s : string) : option string :=
  match ws with
  | [] => None
  | w :: ws' =>
      if startsWith s w then Some (string_drop (String.length w) s)
      else strip_one ws' s
  end.

Fixpoint strip_leading (fuel : nat) (ws : list string) (s : string) : string :=
  match fuel with
  | O => s
  | S fuel' =>
      match strip_one ws s with
      | Some s' => strip_leading fuel' ws s'
      | None => s
      end
  end.

Definition trimStart (s : string) : string :=
  strip_leading (String.length s) white_space s.

Definition trimEnd (s : string) : string :=
  String.rev
    (strip_leading (String.length s) (String.rev <$> white_space) (String.rev s)).

(** [s.trim()] *)
Definition trim (s : string) : string := trimEnd (trimStart s).

(** ** The platform *)

(** [new URL(input)] is the browser's parser, not code of this repository.
    The component reads only the [protocol] of the parsed URL; [None] stands
    for the [TypeError] the constructor throws on an input it cannot parse. *)
Class Platform := {
  URL_protocol : string -> option string
}.

(** A parser that understands only [http://] or [https://] followed by a
    host made of lower-case letters and dots that starts with a letter.  It is
    used to run the component on examples. *)
Definition is_lower (c : ascii) : bool :=
  let n := Ascii.nat_of_ascii c in ((97 <=? n) && (n <=? 122))%nat.

Fixpoint host_chars (s : string) : bool :=
  match s with
  | EmptyString => true
  | String c s' => (is_lower c || bool_decide (c = "."%char)) && host_chars s'
  end.

Definition simple_host (s : string) : bool :=
  match s with
  | EmptyString => false
  | String c s' => is_lower c && host_chars s'
  end.

Definition simple_URL_protocol (s : string) : option string :=
  if startsWith s "https://" && simple_host (string_drop 8 s) then Some "https:"
  else if startsWith s "http://" && simple_host (string_drop 7 s) then Some "http:"
  else None.

Definition simplePlatform : Platform :=
  {| URL_protocol := simple_URL_protocol |}.

(** ** InputNormalizer: [validateUrl] and [addHttpsIfNeeded] *)

Section Normalizer.
Context {P : Platform}.

Definition validateUrl (inputUrl : string) : bool :=
  match URL_protocol inputUrl with
  | Some protocol =>
      bool_decide (protocol = "http:") || bool_decide (protocol = "https:")
  | None => false
  end.

End Normalizer.

Definition addHttpsIfNeeded (inputUrl : string) : string :=
  if negb (startsWith inputUrl "http://") && negb (startsWith inputUrl "https://")
  then "https://" +:+ inputUrl
  else inputUrl.

(** ** Data model *)

(** [interface ScrapedData] *)
Module ScrapedData.
Record Structure := {
  h1 : string;
  h2 : string;
  navigation : bool;
  footer : bool;
  sidebar : bool
}.
Record Image := {
  src : string;
  alt : string;
  width : Z;
  height : Z
}.
Record Stats := {
  images_found : Z;
  has_screenshot : bool;
  css_rules : Z;
  dom_elements : Z
}.
Record t := {
  url : string;
  title : string;
  screenshot : option string;
  structure : Structure;
  images : list Image;
  stats : Stats;
  timestamp : string;
  status : string
}.
End ScrapedData.

(** [interface CloneResult] *)
Module CloneResult.
Record ProcessingInfo := {
  context_length : Z;
  has_screenshot : bool;
  images_processed : Z
}.
Record t := {
  status : string;
  model_used : string;
  html_content : string;
  timestamp : string;
  processing_info : ProcessingInfo
}.
End CloneResult.

(** The [useState] cells of [WebsiteCloner] that the handlers below read or
    write. *)
Record State := {
  url : string;
  isLoading : bool;
  scrapedData : option ScrapedData.t;
  cloneResult : option CloneResult.t;
  error : string;
  previewUrl : string;
  currentStep : string;
  showAdvanced : bool;
  viewportWidth : Z;
  viewportHeight : Z;
  waitTime : Z
}.

(** ** The network *)

(** The JSON bodies of the two POST requests. *)
Module ScrapeBody.
Record t := {
  url : string;
  capture_screenshot : bool;
  viewport_width : Z;
  viewport_height : Z;
  wait_time : Z
}.
End ScrapeBody.

Module CloneBody.
Record t := {
  model : string;
  include_responsive : bool;
  include_interactions : bool;
  scraped_data : ScrapedData.t
}.
End CloneBody.

Inductive Request :=
| POST_scrape (body : ScrapeBody.t)   (* http://localhost:8000/scrape *)
| POST_clone (body : CloneBody.t).    (* http://localhost:8000/clone *)

(** The outcome of [await response.json()]: the parser throws, or gives a
    value of the type the code reads it at. *)
Inductive Json (A : Type) :=
| SyntaxError (message : string)
| Parsed (value : A).
Arguments SyntaxError {A} message.
Arguments Parsed {A} value.

(** The error body of a failed request, of which the code reads [detail]. *)
Record ErrorData := {
  detail : option string
}.

(** The outcome of [await fetch(...)] followed by the reading of the body:
    [fetch] rejects (no response at all), or resolves to a response whose
    [ok] is false, or to one whose [ok] is true. *)
Inductive Response (A : Type) :=
| Rejected (message : string)
| NotOk (body : Json ErrorData)
| Ok (body : Json A).
Arguments Rejected {A} message.
Arguments NotOk {A} body.
Arguments Ok {A} body.

(** ** The object-URL store *)

(** [new Blob([text], { type })] *)
Record Blob := {
  text : string;
  type : string
}.

(** The browser's table of object URLs.  [created] counts the calls of
    [URL.createObjectURL], each of which returns a URL never returned before;
    [live] maps the URLs not yet revoked to their blobs; [revoked] lists the
    arguments of the calls of [URL.revokeObjectURL], oldest first. *)
Record URLStore := {
  created : nat;
  live : gmap string Blob;
  revoked : list string
}.

Definition blob_url (n : nat) : string := "blob:" +:+ pretty n.

(** ** The world *)

(** The part of [executeCloning] that waits for a response. *)
Inductive Suspended :=
| AwaitScrape    (* at [await fetch('http://localhost:8000/scrape', ...)] *)
| AwaitClone.    (* at [await fetch('http://localhost:8000/clone', ...)] *)

Record World := {
  ui : State;
  objectURLs : URLStore;
  fetches : list Request;        (* the requests issued, oldest first *)
  pending : option Suspended;
  timers : nat                   (* [setTimeout] callbacks not yet run *)
}.

Definition update (f : State -> State) (w : World) : World :=
  {| ui := f (ui w); objectURLs := objectURLs w; fetches := fetches w;
     pending := pending w; timers := timers w |}.

Definition setUrl (v : string) : World -> World :=
  update (fun s =>
    {| url := v; isLoading := isLoading s; scrapedData := scrapedData s;
       cloneResult := cloneResult s; error := error s;
       previewUrl := previewUrl s; currentStep := currentStep s;
       showAdvanced := showAdvanced s; viewportWidth := viewportWidth s;
       viewportHeight := viewportHeight s; waitTime := waitTime s |}).

Definition setIsLoading (v : bool) : World -> World :=
  update (fun s =>
    {| url := url s; isLoading := v; scrapedData := scrapedData s;
       cloneResult := cloneResult s; error := error s;
       previewUrl := previewUrl s; currentStep := currentStep s;
       showAdvanced := showAdvanced s; viewportWidth := viewportWidth s;
       viewportHeight := viewportHeight s; waitTime := waitTime s |}).

Definition setScrapedData (v : option ScrapedData.t) : World -> World :=
  update (fun s =>
    {| url := url s; isLoading := isLoading s; scrapedData := v;
       cloneResult := cloneResult s; error := error s;
       previewUrl := previewUrl s; currentStep := currentStep s;
       showAdvanced := showAdvanced s; viewportWidth := viewportWidth s;
       viewportHeight := viewportHeight s; waitTime := waitTime s |}).

Definition setCloneResult (v : option CloneResult.t) : World -> World :=
  update (fun s =>
    {| url := url s; isLoading := isLoading s; scrapedData := scrapedData s;
       cloneResult := v; error := error s;
       previewUrl := previewUrl s; currentStep := currentStep s;
       showAdvanced := showAdvanced s; viewportWidth := viewportWidth s;
       viewportHeight := viewportHeight s; waitTime := waitTime s |}).

Definition setError (v : string) : World -> World :=
  update (fun s =>
    {| url := url s; isLoading := isLoading s; scrapedData := scrapedData s;
       cloneResult := cloneResult s; error := v;
       previewUrl := previewUrl s; currentStep := currentStep s;
       showAdvanced := showAdvanced s; viewportWidth := viewportWidth s;
       viewportHeight := viewportHeight s; waitTime := waitTime s |}).

Definition setPreviewUrl (v : string) : World -> World :=
  update (fun s =>
    {| url := url s; isLoading := isLoading s; scrapedData := scrapedData s;
       cloneResult := cloneResult s; error := error s;
       previewUrl := v; currentStep := currentStep s;
       showAdvanced := showAdvanced s; viewportWidth := viewportWidth s;
       viewportHeight := viewportHeight s; waitTime := waitTime s |}).

Definition setCurrentStep (v : string) : World -> World :=
  update (fun s =>
    {| url := url s; isLoading := isLoading s; scrapedData := scrapedData s;
       cloneResult := cloneResult s; error := error s;
       previewUrl := previewUrl s; currentStep := v;
       showAdvanced := showAdvanced s; viewportWidth := viewportWidth s;
       viewportHeight := viewportHeight s; waitTime := waitTime s |}).

Definition setShowAdvanced (v : bool) : World -> World :=
  update (fun s =>
    {| url := url s; isLoading := isLoading s; scrapedData := scrapedData s;
       cloneResult := cloneResult s; error := error s;
       previewUrl := previewUrl s; currentStep := currentStep s;
       showAdvanced := v; viewportWidth := viewportWidth s;
       viewportHeight := viewportHeight s; waitTime := waitTime s |}).

Definition setViewportWidth (v : Z) : World -> World :=
  update (fun s =>
    {| url := url s; isLoading := isLoading s; scrapedData := scrapedData s;
       cloneResult := cloneResult s; error := error s;
       previewUrl := previewUrl s; currentStep := currentStep s;
       showAdvanced := showAdvanced s; viewportWidth := v;
       viewportHeight := viewportHeight s; waitTime := waitTime s |}).

Definition setViewportHeight (v : Z) : World -> World :=
  update (fun s =>
    {| url := url s; isLoading := isLoading s; scrapedData := scrapedData s;
       cloneResult := cloneResult s; error := error s;
       previewUrl := previewUrl s; currentStep := currentStep s;
       showAdvanced := showAdvanced s; viewportWidth := viewportWidth s;
       viewportHeight := v; waitTime := waitTime s |}).

Definition setWaitTime (v : Z) : World -> World :=
  update (fun s =>
    {| url := url s; isLoading := isLoading s; scrapedData := scrapedData s;
       cloneResult := cloneResult s; error := error s;
       previewUrl := previewUrl s; currentStep := currentStep s;
       showAdvanced := showAdvanced s; viewportWidth := viewportWidth s;
       viewportHeight := viewportHeight s; waitTime := v |}).

(** ** Effects *)

(** [fetch(...)] followed by [await]: the request leaves and the handler is
    suspended at [k]. *)
Definition fetch (r : Request) (k : Suspended) (w : World) : World :=
  {| ui := ui w; objectURLs := objectURLs w; fetches := fetches w ++ [r];
     pending := Some k; timers := timers w |}.

(** The [async] function returns: nothing is suspended any more. *)
Definition settle (w : World) : World :=
  {| ui := ui w; objectURLs := objectURLs w; fetches := fetches w;
     pending := None; timers := timers w |}.

(** [setTimeout(callback, delay)] *)
Definition setTimeout (w : World) : World :=
  {| ui := ui w; objectURLs := objectURLs w; fetches := fetches w;
     pending := pending w; timers := S (timers w) |}.

Definition clearTimer (w : World) : World :=
  {| ui := ui w; objectURLs := objectURLs w; fetches := fetches w;
     pending := pending w; timers := pred (timers w) |}.

Definition with_store (st : URLStore) (w : World) : World :=
  {| ui := ui w; objectURLs := st; fetches := fetches w;
     pending := pending w; timers := timers w |}.

(** [URL.createObjectURL(blob)] *)
Definition createObjectURL (b : Blob) (w : World) : string * World :=
  let st := objectURLs w in
  let u := blob_url (created st) in
  (u, with_store {| created := S (created st);
                    live := <[u := b]> (live st);
                    revoked := revoked st |} w).

(** [URL.revokeObjectURL(u)]: a URL that is not in the store is ignored. *)
Definition revokeObjectURL (u : string) (w : World) : World :=
  let st := objectURLs w in
  with_store {| created := created st;
                live := delete u (live st);
                revoked := revoked st ++ [u] |} w.

(** [a || b] on an optional string: [b] when [a] is undefined or empty. *)
Definition or_else (a : option string) (b : string) : string :=
  match a with
  | Some v => if truthy v then v else b
  | None => b
  end.

(** ** The handlers *)

(** The [finally] block of [executeCloning], after which the function
    returns. *)
Definition finally (w : World) : World :=
  settle (setIsLoading false w).

(** The [catch] block of [executeCloning], entered with the message of the
    error thrown in the [try] block. *)
Definition catch (message : string) (w : World) : World :=
  let w := setError ("Failed to clone website: " +:+ message) w in
  let w := setCurrentStep "" w in
  finally w.

Section Handlers.
Context {P : Platform}.

(** [executeCloning], up to the first [await].  [s] is the state of the
    render the handler belongs to. *)
Definition executeCloning (w : World) : World :=
  let s := ui w in
  if negb (truthy (trim (url s))) then
    setError "Please enter a website URL" w
  else
    let processedUrl := addHttpsIfNeeded (trim (url s)) in
    if negb (validateUrl processedUrl) then
      setError "Please enter a valid URL (e.g., https://example.com)" w
    else
      let w := setIsLoading true w in
      let w := setError "" w in
      let w := setScrapedData None w in
      let w := setCloneResult None w in
      let w := setPreviewUrl "" w in
      let w := setCurrentStep
        "🔍 Analyzing website structure and capturing screenshots..." w in
      fetch
        (POST_scrape
           {| ScrapeBody.url := processedUrl;
              ScrapeBody.capture_screenshot := true;
              ScrapeBody.viewport_width := viewportWidth s;
              ScrapeBody.viewport_height := viewportHeight s;
              ScrapeBody.wait_time := waitTime s |})
        AwaitScrape w.

End Handlers.

(** What the [try] block of [executeCloning] does from one [await] on: it
    throws an [Error] with a message, or goes on to the next [await] or to the
    end of the block. *)
Inductive Outcome :=
| Throw (message : string)
| Continue (w : World).

(** [await response.json()]: a body that cannot be parsed throws. *)
Definition json {A} (body : Json A) (k : A -> Outcome) : Outcome :=
  match body with
  | SyntaxError message => Throw message
  | Parsed value => k value
  end.

(** The [try] block from the first [await] to the second. *)
Definition try_scraped (r : Response ScrapedData.t) (w : World) : Outcome :=
  match r with
  | Rejected message => Throw message
  | NotOk body =>
      json body (fun errorData =>
        Throw (or_else (detail errorData) "Website scraping failed"))
  | Ok body =>
      json body (fun scraped =>
        let w := setScrapedData (Some scraped) w in
        let w := setCurrentStep
          "🤖 AI analyzing design and generating HTML clone..." w in
        Continue
          (fetch
             (POST_clone
                {| CloneBody.model := "gpt-4o";
                   CloneBody.include_responsive := true;
                   CloneBody.include_interactions := true;
                   CloneBody.scraped_data := scraped |})
             AwaitClone w))
  end.

(** The [try] block from the second [await] to its end. *)
Definition try_cloned (r : Response CloneResult.t) (w : World) : Outcome :=
  match r with
  | Rejected message => Throw message
  | NotOk body =>
      json body (fun errorData =>
        Throw (or_else (detail errorData) "AI cloning failed"))
  | Ok body =>
      json body (fun cloneData =>
        let w := setCloneResult (Some cloneData) w in
        let w :=
          if truthy (CloneResult.html_content cloneData) then
            let '(previewUrl, w) :=
              createObjectURL
                {| text := CloneResult.html_content cloneData;
                   type := "text/html" |} w in
            setPreviewUrl previewUrl w
          else w in
        let w := setCurrentStep "✅ Website cloning completed successfully!" w in
        Continue (setTimeout w))
  end.

(** [executeCloning] from the first [await] on: a throw is caught by the
    [catch] block, which [finally] follows; the way to the second [await]
    leaves the function suspended there. *)
Definition executeCloning_scraped (r : Response ScrapedData.t) (w : World) : World :=
  match try_scraped r w with
  | Throw message => catch message w
  | Continue w' => w'
  end.

(** [executeCloning] from the second [await] on: [finally] runs after the
    [try] block as after the [catch] block. *)
Definition executeCloning_cloned (r : Response CloneResult.t) (w : World) : World :=
  match try_cloned r w with
  | Throw message => catch message w
  | Continue w' => finally w'
  end.

(** The callback of the [setTimeout] in [executeCloning]. *)
Definition clearStep (w : World) : World :=
  setCurrentStep "" (clearTimer w).

(** [downloadHtml]: the link is clicked between the two calls. *)
Definition downloadHtml (w : World) : World :=
  match cloneResult (ui w) with
  | None => w
  | Some c =>
      if truthy (CloneResult.html_content c) then
        let '(url, w) :=
          createObjectURL
            {| text := CloneResult.html_content c; type := "text/html" |} w in
        revokeObjectURL url w
      else w
  end.

(** [resetForm].  [s] is the state of the render the handler belongs to, so
    [previewUrl s] is the URL that was stored before [setPreviewUrl('')]. *)
Definition resetForm (w : World) : World :=
  let s := ui w in
  let w := setUrl "" w in
  let w := setScrapedData None w in
  let w := setCloneResult None w in
  let w := setError "" w in
  let w := setPreviewUrl "" w in
  let w := setCurrentStep "" w in
  if truthy (previewUrl s) then revokeObjectURL (previewUrl s) w else w.

(** ** The component as a transition system *)

Inductive Event :=
| ChangeUrl (value : string)        (* typing in the URL input *)
| PressEnter                        (* Enter in the URL input *)
| ClickClone                        (* the Clone Website button *)
| ClickReset                        (* the Reset button *)
| ClickDownload                     (* the Download HTML button *)
| ToggleAdvanced                    (* the Advanced Options button *)
| ChangeViewportWidth (value : Z)   (* [Number(e.target.value)] of the input *)
| ChangeViewportHeight (value : Z)
| ChangeWaitTime (value : Z)
| ScrapeResponse (r : Response ScrapedData.t)
| CloneResponse (r : Response CloneResult.t)
| TimerFires.

Definition is_some {A} (o : option A) : bool :=
  match o with Some _ => true | None => false end.

Section Step.
Context {P : Platform}.

(** What an event does to the world; [None] when the event cannot occur:
    the control is disabled or not rendered, or no request or timer is
    outstanding. *)
Definition handle (e : Event) (w : World) : option World :=
  let s := ui w in
  match e with
  | ChangeUrl value =>
      if isLoading s then None else Some (setUrl value w)
  | PressEnter =>
      if isLoading s then None else Some (executeCloning w)
  | ClickClone =>
      if isLoading s || negb (truthy (trim (url s))) then None
      else Some (executeCloning w)
  | ClickReset =>
      if is_some (scrapedData s) || is_some (cloneResult s)
      then Some (resetForm w) else None
  | ClickDownload =>
      if is_some (scrapedData s) && is_some (cloneResult s)
      then Some (downloadHtml w) else None
  | ToggleAdvanced => Some (setShowAdvanced (negb (showAdvanced s)) w)
  | ChangeViewportWidth value =>
      if showAdvanced s then Some (setViewportWidth value w) else None
  | ChangeViewportHeight value =>
      if showAdvanced s then Some (setViewportHeight value w) else None
  | ChangeWaitTime value =>
      if showAdvanced s then Some (setWaitTime value w) else None
  | ScrapeResponse r =>
      match pending w with
      | Some AwaitScrape => Some (executeCloning_scraped r w)
      | _ => None
      end
  | CloneResponse r =>
      match pending w with
      | Some AwaitClone => Some (executeCloning_cloned r w)
      | _ => None
      end
  | TimerFires =>
      match timers w with
      | O => None
      | S _ => Some (clearStep w)
      end
  end.

Fixpoint run (evs : list Event) (w : World) : option World :=
  match evs with
  | [] => Some w
  | e :: evs' =>
      match handle e w with
      | Some w' => run evs' w'
      | None => None
      end
  end.

End Step.

(** The world when the page has just been loaded. *)
Definition init : World :=
  {| ui := {| url := ""; isLoading := false; scrapedData := None;
              cloneResult := None; error := ""; previewUrl := "";
              currentStep := ""; showAdvanced := false;
              viewportWidth := 1280; viewportHeight := 720;
              waitTime := 8000 |};
     objectURLs := {| created := 0; live := ∅; revoked := [] |};
     fetches := [];
     pending := None;
     timers := 0 |}.

Definition reachable {P : Platform} (w : World) : Prop :=
  exists evs, run evs init = Some w.

(** ** The stages of a run *)

(** The component has no stage variable.  The stage of a world is read off
    what is suspended and, when nothing is, off what the last run left: the
    [catch] block is the only writer of an [error] that starts with
    "Failed to clone website: ". *)
Inductive Stage := Idle | Capturing | Analyzing | Completed | Failed.

Definition stage (w : World) : Stage :=
  match pending w with
  | Some AwaitScrape => Capturing
  | Some AwaitClone => Analyzing
  | None =>
      if startsWith (error (ui w)) "Failed to clone website: " then Failed
      else if is_some (cloneResult (ui w)) then Completed
      else Idle
  end.


(** ** Sample data *)

Definition sampleScraped : ScrapedData.t :=
  {| ScrapedData.url := "https://example.com";
     ScrapedData.title := "Example Domain";
     ScrapedData.screenshot := None;
     ScrapedData.structure :=
       {| ScrapedData.h1 := "Example Domain"; ScrapedData.h2 := "";
          ScrapedData.navigation := false; ScrapedData.footer := false;
          ScrapedData.sidebar := false |};
     ScrapedData.images := [];
     ScrapedData.stats :=
       {| ScrapedData.images_found := 0; ScrapedData.has_screenshot := false;
          ScrapedData.css_rules := 3; ScrapedData.dom_elements := 12 |};
     ScrapedData.timestamp := "2025-06-01T10:00:00";
     ScrapedData.status := "success" |}.

Definition sampleClone (html : string) : CloneResult.t :=
  {| CloneResult.status := "success";
     CloneResult.model_used := "gpt-4o";
     CloneResult.html_content := html;
     CloneResult.timestamp := "2025-06-01T10:01:00";
     CloneResult.processing_info :=
       {| CloneResult.context_length := 100;
          CloneResult.has_screenshot := false;
          CloneResult.images_processed := 0 |} |}.

(** The world after the events [evs] on a freshly loaded page, with the
    simple URL parser. *)
Definition after (evs : list Event) : World :=
  default init (run (P := simplePlatform) evs init).

(** ** Invariants of the reachable worlds *)

(** [u] is one of the URLs the store has handed out. *)
Definition known (st : URLStore) (u : string) : Prop :=
  exists n, (n < created st)%nat /\ u = blob_url n.

Record Inv (w : World) : Prop := {
  inv_loading : isLoading (ui w) = is_some (pending w);
  inv_capturing :
    pending w = Some AwaitScrape -> scrapedData (ui w) = None;
  inv_inflight :
    pending w <> None -> cloneResult (ui w) = None /\ previewUrl (ui w) = "";
  inv_live :
    forall u, is_Some (live (objectURLs w) !! u) -> known (objectURLs w) u;
  inv_revoked :
    forall u, u ∈ revoked (objectURLs w) ->
      known (objectURLs w) u /\ live (objectURLs w) !! u = None;
  inv_nodup : NoDup (revoked (objectURLs w));
  inv_preview :
    previewUrl (ui w) <> "" ->
    is_Some (live (objectURLs w) !! previewUrl (ui w))
}.

(** ** Requests and responses of a trace *)

(** The bodies of the reconstruct requests in a list of requests. *)
Fixpoint clone_bodies (l : list Request) : list CloneBody.t :=
  match l with
  | [] => []
  | POST_clone b :: l' => b :: clone_bodies l'
  | POST_scrape _ :: l' => clone_bodies l'
  end.

(** The capture results that the events of a trace deliver. *)
Fixpoint captured (evs : list Event) : list ScrapedData.t :=
  match evs with
  | [] => []
  | ScrapeResponse (Ok (Parsed scraped)) :: evs' => scraped :: captured evs'
  | _ :: evs' => captured evs'
  end.

(** The ways a remote call fails, with the message of the error that the
    [try] block throws then; [generic] is the message of the stage. *)
Inductive Fails {A} (generic : string) : Response A -> string -> Prop :=
| fails_transport message :
    Fails generic (Rejected message) message
| fails_detail d :
    d <> "" -> Fails generic (NotOk (Parsed {| detail := Some d |})) d
| fails_empty_detail :
    Fails generic (NotOk (Parsed {| detail := Some "" |})) generic
| fails_no_detail :
    Fails generic (NotOk (Parsed {| detail := None |})) generic
| fails_error_body_unreadable message :
    Fails generic (NotOk (SyntaxError message)) message
| fails_body_unreadable message :
    Fails generic (Ok (SyntaxError message)) message.

(** [s] contains [t]. *)
Definition contains (s t : string) : Prop :=
  exists a b, s = a +:+ t +:+ b.

(** The body of the reconstruct request that [executeCloning] builds from a
    capture result. *)
Definition clone_body (scraped : ScrapedData.t) : CloneBody.t :=
  {| CloneBody.model := "gpt-4o";
     CloneBody.include_responsive := true;
     CloneBody.include_interactions := true;
     CloneBody.scraped_data := scraped |}.

(** ** Sample traces *)

(** The user types an address and starts a run. *)
Definition trace_capturing : list Event :=
  [ChangeUrl "example.com"; ClickClone].

(** The capture call succeeds. *)
Definition trace_analyzing : list Event :=
  trace_capturing ++ [ScrapeResponse (Ok (Parsed sampleScraped))].

(** The reconstruct call succeeds. *)
Definition trace_completed : list Event :=
  trace_analyzing ++ [CloneResponse (Ok (Parsed (sampleClone "<p>hi</p>")))].

(** A second run after the first is completed, then Reset. *)
Definition trace_second_run : list Event :=
  trace_completed ++
  [ClickClone; ScrapeResponse (Ok (Parsed sampleScraped));
   CloneResponse (Ok (Parsed (sampleClone "<p>again</p>"))); ClickReset].

(** ** What the page renders *)

(** [disabled] of the Clone Website button. *)
Definition cloneDisabled (s : State) : bool :=
  isLoading s || negb (truthy (trim (url s))).

(** The Reset button is rendered. *)
Definition showsReset (s : State) : bool :=
  is_some (scrapedData s) || is_some (cloneResult s).

(** The Loading Status banner is rendered. *)
Definition showsLoadingStatus (s : State) : bool :=
  isLoading s && truthy (currentStep s).

(** The Error Display is rendered. *)
Definition showsError (s : State) : bool :=
  truthy (error s).

(** The Results, with the Live Preview, Download HTML and Copy Code buttons,
    are rendered. *)
Definition showsResults (s : State) : bool :=
  is_some (scrapedData s) && is_some (cloneResult s).

(** The Features Section is rendered. *)
Definition showsFeatures (s : State) : bool :=
  negb (isLoading s) && negb (is_some (scrapedData s)).

(** [openPreview]: the URL given to [window.open], if the handler opens
    one. *)
Definition openPreview (w : World) : option string :=
  if truthy (previewUrl (ui w)) then Some (previewUrl (ui w)) else None.

(** ** The steps of the component *)

Section Steps.
Context {P : Platform}.

(** The events that can occur in a world, each with the handler that runs
    and the condition under which the page lets it occur. *)
Inductive Step (w : World) : Event -> World -> Prop :=
| step_url value :
    isLoading (ui w) = false ->
    Step w (ChangeUrl value) (setUrl value w)
| step_enter :
    isLoading (ui w) = false ->
    Step w PressEnter (executeCloning w)
| step_clone :
    cloneDisabled (ui w) = false ->
    Step w ClickClone (executeCloning w)
| step_reset :
    showsReset (ui w) = true ->
    Step w ClickReset (resetForm w)
| step_download :
    showsResults (ui w) = true ->
    Step w ClickDownload (downloadHtml w)
| step_advanced :
    Step w ToggleAdvanced (setShowAdvanced (negb (showAdvanced (ui w))) w)
| step_width value :
    showAdvanced (ui w) = true ->
    Step w (ChangeViewportWidth value) (setViewportWidth value w)
| step_height value :
    showAdvanced (ui w) = true ->
    Step w (ChangeViewportHeight value) (setViewportHeight value w)
| step_wait value :
    showAdvanced (ui w) = true ->
    Step w (ChangeWaitTime value) (setWaitTime value w)
| step_scraped r :
    pending w = Some AwaitScrape ->
    Step w (ScrapeResponse r) (executeCloning_scraped r w)
| step_cloned r :
    pending w = Some AwaitClone ->
    Step w (CloneResponse r) (executeCloning_cloned r w)
| step_timer :
    (0 < timers w)%nat ->
    Step w TimerFires (clearStep w).

End Steps.

(** ** More invariants of the reachable worlds *)

Record Inv2 (w : World) : Prop := {
  inv_error_loading :
    pending w <> None -> error (ui w) = "";
  inv_error_shape :
    error (ui w) = "" \/
    error (ui w) = "Please enter a website URL" \/
    error (ui w) = "Please enter a valid URL (e.g., https://example.com)" \/
    exists message, error (ui w) = "Failed to clone website: " +:+ message;
  inv_preview_blob :
    previewUrl (ui w) <> "" ->
    exists c,
      cloneResult (ui w) = Some c /\
      live (objectURLs w) !! previewUrl (ui w) =
        Some {| text := CloneResult.html_content c; type := "text/html" |};
  inv_count :
    created (objectURLs w) =
    (length (revoked (objectURLs w)) + size (live (objectURLs w)))%nat;
  inv_blobs :
    forall u b,
      live (objectURLs w) !! u = Some b ->
      type b = "text/html" /\ text b <> ""
}.

(** ** Where the values of a request come from *)

(** [v] is the initial value of an input or a value that an event of the
    trace entered. *)
Definition entered {A} (initial : A) (change : A -> Event)
    (evs : list Event) (v : A) : Prop :=
  v = initial \/ change v ∈ evs.

(** The capture request [b] was built from what the user entered in the
    trace, and its address has passed validation. *)
Record from_inputs {P : Platform} (evs : list Event) (b : ScrapeBody.t) : Prop := {
  from_address :
    exists raw,
      ChangeUrl raw ∈ evs /\ trim raw <> "" /\
      ScrapeBody.url b = addHttpsIfNeeded (trim raw);
  from_valid : validateUrl (ScrapeBody.url b) = true;
  from_screenshot : ScrapeBody.capture_screenshot b = true;
  from_width :
    entered 1280 ChangeViewportWidth evs (ScrapeBody.viewport_width b);
  from_height :
    entered 720 ChangeViewportHeight evs (ScrapeBody.viewport_height b);
  from_wait :
    entered 8000 ChangeWaitTime evs (ScrapeBody.wait_time b)
}.

Record TraceInv {P : Platform} (evs : list Event) (w : World) : Prop := {
  tr_url : entered "" ChangeUrl evs (url (ui w));
  tr_width : entered 1280 ChangeViewportWidth evs (viewportWidth (ui w));
  tr_height : entered 720 ChangeViewportHeight evs (viewportHeight (ui w));
  tr_wait : entered 8000 ChangeWaitTime evs (waitTime (ui w));
  tr_requests : forall b, POST_scrape b ∈ fetches w -> from_inputs evs b
}.

(** ** The list of requests *)

(** The shape of the list of requests: a reconstruct request directly
    follows a capture request, and the outstanding call is the last request
    of the list. *)
Definition log_shape (w : World) : Prop :=
  (forall l1 b l2,
     fetches w = l1 ++ POST_clone b :: l2 ->
     exists l0 sb, l1 = l0 ++ [POST_scrape sb])
  /\ (pending w = Some AwaitScrape ->
      exists l0 sb, fetches w = l0 ++ [POST_scrape sb])
  /\ (pending w = Some AwaitClone ->
      exists l0 sb b, fetches w = l0 ++ [POST_scrape sb; POST_clone b]).

(** ** More sample data *)

(** The capture request of the sample run. *)
Definition sampleScrapeBody : ScrapeBody.t :=
  {| ScrapeBody.url := "https://example.com";
     ScrapeBody.capture_screenshot := true;
     ScrapeBody.viewport_width := 1280;
     ScrapeBody.viewport_height := 720;
     ScrapeBody.wait_time := 8000 |}.


(** ** Reduction *)

(** The handlers are unfolded by hand in the proofs. *)
Global Arguments trim : simpl never.
Global Arguments addHttpsIfNeeded : simpl never.
Global Arguments validateUrl : simpl never.
Global Arguments executeCloning : simpl never.
Global Arguments blob_url : simpl never.

(** ** Tactics *)

Ltac unfold_handlers :=
  unfold executeCloning, executeCloning_scraped, executeCloning_cloned,
    try_scraped, try_cloned, json, catch, finally, clearStep, downloadHtml,
    resetForm, createObjectURL, revokeObjectURL in *.

(** ** Strings: lemmas *)

Lemma truthy_true (s : string) : truthy s = true <-> s <> "".
Proof. destruct s; simpl; split; intros; congruence. Qed.

Lemma truthy_false (s : string) : truthy s = false <-> s = "".
Proof. destruct s; simpl; split; intros; congruence. Qed.

Lemma startsWith_app (p t : string) : startsWith (p +:+ t) p = true.
Proof.
  induction p as [|c p IH]; [by destruct t|].
  change (String c p +:+ t) with (String c (p +:+ t)). simpl.
  rewrite decide_True; done.
Qed.

Lemma startsWith_inv (s p : string) :
  startsWith s p = true -> exists t, s = p +:+ t.
Proof.
  revert s. induction p as [|c p IH]; intros s H.
  - by exists s.
  - destruct s as [|d s]; simpl in H; [done|].
    destruct (decide (c = d)) as [->|]; [|done].
    destruct (IH s H) as [t ->]. by exists t.
Qed.

Lemma startsWith_spec (s p : string) :
  startsWith s p = true <-> exists t, s = p +:+ t.
Proof.
  split; [apply startsWith_inv|]. intros [t ->]. apply startsWith_app.
Qed.

Lemma append_empty_r (s : string) : s +:+ "" = s.
Proof.
  induction s as [|c s IH]; [done|].
  change (String c s +:+ "") with (String c (s +:+ "")). by rewrite IH.
Qed.

Lemma blob_url_inj (n m : nat) : blob_url n = blob_url m -> n = m.
Proof.
  unfold blob_url. intros H. apply String.app_inj in H.
  by apply (inj pretty) in H.
Qed.

Lemma blob_url_nonempty (n : nat) : blob_url n <> "".
Proof. unfold blob_url. by cbv [String.append]. Qed.

Lemma known_mono (st st' : URLStore) (u : string) :
  (created st <= created st')%nat -> known st u -> known st' u.
Proof. intros Hle (n & Hn & ->). exists n. split; [lia|done]. Qed.

Lemma known_fresh (st : URLStore) : ~ known st (blob_url (created st)).
Proof. intros (n & Hn & Heq). apply blob_url_inj in Heq. lia. Qed.

(** ** The invariant holds in every reachable world *)

Lemma Inv_init : Inv init.
Proof.
  split; simpl; try done.
  - intros u [b Hb]. by rewrite lookup_empty in Hb.
  - intros u Hu. by apply elem_of_nil in Hu.
  - constructor.
Qed.

(** A change of the component state that leaves the cells of the invariant
    alone keeps it. *)
Lemma Inv_frame (w w' : World) :
  Inv w ->
  objectURLs w' = objectURLs w ->
  pending w' = pending w ->
  isLoading (ui w') = isLoading (ui w) ->
  scrapedData (ui w') = scrapedData (ui w) ->
  cloneResult (ui w') = cloneResult (ui w) ->
  previewUrl (ui w') = previewUrl (ui w) ->
  Inv w'.
Proof.
  intros [Hload Hcap Hfl Hlive Hrev Hnd Hprev] Hs Hp Hl Hd Hc Hu.
  split; rewrite ?Hs, ?Hp, ?Hl, ?Hd, ?Hc, ?Hu; done.
Qed.

Lemma Inv_catch (w : World) (message : string) : Inv w -> Inv (catch message w).
Proof.
  intros [Hload Hcap Hfl Hlive Hrev Hnd Hprev].
  unfold catch, finally. split; simpl; try done.
Qed.

Section Properties.
Context {P : Platform}.

(** The two ways through [executeCloning]: an early return that only sets
    the error, or the start of a run. *)
Lemma executeCloning_cases (w : World) :
  (exists message, message <> "" /\ executeCloning w = setError message w)
  \/ (exists b step,
        executeCloning w =
        fetch (POST_scrape b) AwaitScrape
          (setCurrentStep step
             (setPreviewUrl "" (setCloneResult None (setScrapedData None
                (setError "" (setIsLoading true w))))))).
Proof.
  unfold executeCloning.
  destruct (negb (truthy (trim (url (ui w))))).
  { left. eexists. split; [|reflexivity]. discriminate. }
  destruct (negb (validateUrl _)).
  { left. eexists. split; [|reflexivity]. discriminate. }
  right. do 2 eexists. reflexivity.
Qed.

Lemma Inv_executeCloning (w : World) :
  Inv w -> isLoading (ui w) = false -> Inv (executeCloning w).
Proof.
  intros HI Hl.
  destruct (executeCloning_cases w) as [(m & _ & ->)|(b & step & ->)].
  { eapply Inv_frame; eauto. }
  destruct HI as [Hload Hcap Hfl Hlive Hrev Hnd Hprev]. split; simpl; try done.
Qed.

Lemma Inv_resetForm (w : World) : Inv w -> Inv (resetForm w).
Proof.
  intros HI. unfold resetForm.
  destruct (truthy (previewUrl (ui w))) eqn:Hp.
  - apply truthy_true in Hp. destruct HI as [Hload Hcap Hfl Hlive Hrev Hnd Hprev].
    unfold revokeObjectURL. split; simpl in *; try done.
    + intros u [b Hb]. apply lookup_delete_Some in Hb as [? Hb].
      eapply known_mono; [|apply Hlive; eauto]. done.
    + intros u [Hu| ->%list_elem_of_singleton]%elem_of_app.
      * destruct (Hrev u Hu) as [Hk Hn]. split.
        -- eapply known_mono; [|exact Hk]. done.
        -- apply lookup_delete_None. by right.
      * split; [|apply lookup_delete_eq].
        eapply known_mono; [|by apply Hlive, Hprev]. done.
    + apply NoDup_app. split_and!; [done| |apply NoDup_singleton].
      intros u Hu ->%list_elem_of_singleton.
      destruct (Hrev _ Hu) as [_ Hn].
      destruct (Hprev Hp) as [b Hb]. congruence.
  - destruct HI as [Hload Hcap Hfl Hlive Hrev Hnd Hprev]. split; simpl in *; done.
Qed.

Lemma Inv_downloadHtml (w : World) :
  Inv w -> Inv (downloadHtml w).
Proof.
  intros HI. unfold downloadHtml.
  destruct (cloneResult (ui w)) as [c|] eqn:Hc; [|done].
  destruct (truthy (CloneResult.html_content c)); [|done].
  pose proof (known_fresh (objectURLs w)) as Hfresh.
  destruct HI as [Hload Hcap Hfl Hlive Hrev Hnd Hprev]. unfold_handlers.
  set (u := blob_url (created (objectURLs w))) in *.
  split; simpl in *; try done.
  - intros v [b Hb]. apply lookup_delete_Some in Hb as [Hne Hb].
    rewrite lookup_insert_ne in Hb by done.
    eapply known_mono; [|apply Hlive; eauto]. simpl. lia.
  - intros v [Hv| ->%list_elem_of_singleton]%elem_of_app.
    + destruct (Hrev v Hv) as [Hk Hn]. split.
      * eapply known_mono; [|done]. simpl. lia.
      * apply lookup_delete_None. right.
        rewrite lookup_insert_ne; [done|]. intros <-. done.
    + split; [|apply lookup_delete_eq]. exists (created (objectURLs w)).
      simpl. split; [lia|done].
  - apply NoDup_app. split_and!; [done| |apply NoDup_singleton].
    intros v Hv ->%list_elem_of_singleton.
    by destruct (Hrev _ Hv) as [Hk _].
  - intros Hp. specialize (Hprev Hp).
    rewrite lookup_delete_ne, lookup_insert_ne; [done| |];
      intros Heq; apply Hfresh; rewrite Heq; by apply Hlive.
Qed.

Lemma Inv_scraped (w : World) (r : Response ScrapedData.t) :
  Inv w -> pending w = Some AwaitScrape -> Inv (executeCloning_scraped r w).
Proof.
  intros HI Hp. unfold executeCloning_scraped.
  destruct (try_scraped r w) as [message|w'] eqn:Ht; [by apply Inv_catch|].
  destruct r as [m|[m|e]|[m|scraped]]; simpl in Ht; try done.
  injection Ht as <-. destruct HI as [Hload Hcap Hfl Hlive Hrev Hnd Hprev].
  destruct Hfl as [Hc Hu]; [by rewrite Hp|].
  split; simpl in *; try done.
  by rewrite Hload, Hp.
Qed.

Lemma Inv_cloned (w : World) (r : Response CloneResult.t) :
  Inv w -> pending w = Some AwaitClone -> Inv (executeCloning_cloned r w).
Proof.
  intros HI Hp. unfold executeCloning_cloned.
  destruct (try_cloned r w) as [message|w'] eqn:Ht; [by apply Inv_catch|].
  destruct r as [m|[m|e]|[m|cloneData]]; simpl in Ht; try done.
  injection Ht as <-.
  destruct (truthy (CloneResult.html_content cloneData)).
  - destruct HI as [Hload Hcap Hfl Hlive Hrev Hnd Hprev]. unfold_handlers.
    set (u := blob_url (created (objectURLs w))) in *.
    split; simpl in *; try done.
    + intros v [b Hb]. destruct (decide (u = v)) as [<-|Hne].
      * exists (created (objectURLs w)). simpl. split; [lia|done].
      * rewrite lookup_insert_ne in Hb by done.
        eapply known_mono; [|apply Hlive; eauto]. simpl. lia.
    + intros v Hv. destruct (Hrev v Hv) as [Hk Hn]. split.
      * eapply known_mono; [|done]. simpl. lia.
      * rewrite lookup_insert_ne; [done|]. intros <-.
        by apply (known_fresh (objectURLs w)).
    + intros _. rewrite lookup_insert_eq. eauto.
  - destruct HI as [Hload Hcap Hfl Hlive Hrev Hnd Hprev]. unfold_handlers.
    split; simpl in *; try done.
Qed.

Lemma Inv_handle (e : Event) (w w' : World) :
  Inv w -> handle e w = Some w' -> Inv w'.
Proof.
  intros HI He. destruct e; simpl in He.
  - destruct (isLoading (ui w)); [done|]. injection He as <-.
    eapply Inv_frame; eauto.
  - destruct (isLoading (ui w)) eqn:Hl; [done|]. injection He as <-.
    by apply Inv_executeCloning.
  - destruct (isLoading (ui w)) eqn:Hl; [done|]. simpl in He.
    destruct (negb _); [done|]. injection He as <-.
    by apply Inv_executeCloning.
  - destruct (_ || _); [|done]. injection He as <-. by apply Inv_resetForm.
  - destruct (_ && _); [|done]. injection He as <-. by apply Inv_downloadHtml.
  - injection He as <-. eapply Inv_frame; eauto.
  - destruct (showAdvanced (ui w)); [|done]. injection He as <-.
    eapply Inv_frame; eauto.
  - destruct (showAdvanced (ui w)); [|done]. injection He as <-.
    eapply Inv_frame; eauto.
  - destruct (showAdvanced (ui w)); [|done]. injection He as <-.
    eapply Inv_frame; eauto.
  - destruct (pending w) as [[]|] eqn:Hp; try done. injection He as <-.
    by apply Inv_scraped.
  - destruct (pending w) as [[]|] eqn:Hp; try done. injection He as <-.
    by apply Inv_cloned.
  - destruct (timers w); [done|]. injection He as <-.
    eapply Inv_frame; eauto.
Qed.

Lemma Inv_run (evs : list Event) (w w' : World) :
  Inv w -> run evs w = Some w' -> Inv w'.
Proof.
  revert w. induction evs as [|e evs IH]; intros w HI Hr; simpl in Hr.
  - by injection Hr as <-.
  - destruct (handle e w) as [w1|] eqn:He; [|done].
    eapply IH; [|done]. by eapply Inv_handle.
Qed.

Lemma reachable_Inv (w : World) : reachable w -> Inv w.
Proof. intros [evs Hr]. eapply Inv_run; [apply Inv_init|done]. Qed.

(** ** The requests of a trace *)

Lemma clone_bodies_app (l l' : list Request) :
  clone_bodies (l ++ l') = clone_bodies l ++ clone_bodies l'.
Proof.
  induction l as [|[b|b] l IH]; simpl; [done|done|]. by rewrite IH.
Qed.

Lemma executeCloning_clone_bodies (w : World) :
  clone_bodies (fetches (executeCloning w)) = clone_bodies (fetches w).
Proof.
  unfold executeCloning.
  destruct (negb (truthy _)); [done|]. destruct (negb (validateUrl _)); [done|].
  simpl. rewrite clone_bodies_app. simpl. by rewrite app_nil_r.
Qed.

Lemma catch_fetches (w : World) (message : string) :
  fetches (catch message w) = fetches w.
Proof. done. Qed.

Lemma resetForm_fetches (w : World) : fetches (resetForm w) = fetches w.
Proof. unfold resetForm. by destruct (truthy _). Qed.

Lemma downloadHtml_fetches (w : World) : fetches (downloadHtml w) = fetches w.
Proof.
  unfold downloadHtml. destruct (cloneResult _); [|done]. by destruct (truthy _).
Qed.

Lemma cloned_fetches (w : World) (r : Response CloneResult.t) :
  fetches (executeCloning_cloned r w) = fetches w.
Proof.
  destruct r as [m|[m|e]|[m|c]]; try done.
  unfold executeCloning_cloned, try_cloned, json.
  by destruct (truthy _).
Qed.

Lemma handle_clone_bodies (e : Event) (w w' : World) :
  handle e w = Some w' ->
  clone_bodies (fetches w') =
  clone_bodies (fetches w) ++ (clone_body <$> captured [e]).
Proof.
  intros He. destruct e; simpl in He.
  - destruct (isLoading _); [done|]. injection He as <-. simpl. by rewrite app_nil_r.
  - destruct (isLoading _); [done|]. injection He as <-. simpl.
    by rewrite executeCloning_clone_bodies, app_nil_r.
  - destruct (_ || _); [done|]. injection He as <-. simpl.
    by rewrite executeCloning_clone_bodies, app_nil_r.
  - destruct (_ || _); [|done]. injection He as <-. simpl.
    by rewrite resetForm_fetches, app_nil_r.
  - destruct (_ && _); [|done]. injection He as <-. simpl.
    by rewrite downloadHtml_fetches, app_nil_r.
  - injection He as <-. simpl. by rewrite app_nil_r.
  - destruct (showAdvanced _); [|done]. injection He as <-. simpl. by rewrite app_nil_r.
  - destruct (showAdvanced _); [|done]. injection He as <-. simpl. by rewrite app_nil_r.
  - destruct (showAdvanced _); [|done]. injection He as <-. simpl. by rewrite app_nil_r.
  - destruct (pending w) as [[]|]; try done. injection He as <-.
    destruct r as [m|[m|err]|[m|scraped]]; simpl; rewrite ?app_nil_r; try done.
    by rewrite clone_bodies_app.
  - destruct (pending w) as [[]|]; try done. injection He as <-.
    rewrite cloned_fetches. simpl. by rewrite app_nil_r.
  - destruct (timers w); [done|]. injection He as <-. simpl. by rewrite app_nil_r.
Qed.

Lemma captured_cons (e : Event) (evs : list Event) :
  captured (e :: evs) = captured [e] ++ captured evs.
Proof. destruct e as [| | | | | | | | |[m|[m|err]|[m|s]]| |]; done. Qed.

Lemma run_clone_bodies (evs : list Event) (w w' : World) :
  run evs w = Some w' ->
  clone_bodies (fetches w') =
  clone_bodies (fetches w) ++ (clone_body <$> captured evs).
Proof.
  revert w. induction evs as [|e evs IH]; intros w Hr; simpl in Hr.
  - injection Hr as <-. simpl. by rewrite app_nil_r.
  - destruct (handle e w) as [w1|] eqn:He; [|done].
    rewrite (IH _ Hr), (handle_clone_bodies _ _ _ He), (captured_cons e evs).
    by rewrite fmap_app, app_assoc.
Qed.

(** An event extends the list of requests by at most one request. *)
Lemma handle_fetches (e : Event) (w w' : World) :
  handle e w = Some w' ->
  fetches w' = fetches w \/
  (exists b, fetches w' = fetches w ++ [POST_scrape b] /\
     (e = PressEnter \/ e = ClickClone)) \/
  (exists scraped, fetches w' = fetches w ++ [POST_clone (clone_body scraped)] /\
     e = ScrapeResponse (Ok (Parsed scraped)) /\
     pending w = Some AwaitScrape /\
     scrapedData (ui w') = Some scraped /\
     pending w' = Some AwaitClone).
Proof.
  intros He. destruct e; simpl in He.
  - destruct (isLoading _); [done|]. injection He as <-. by left.
  - destruct (isLoading _); [done|]. injection He as <-.
    unfold executeCloning. destruct (negb (truthy _)); [by left|].
    destruct (negb (validateUrl _)); [by left|]. right; left. eauto.
  - destruct (_ || _); [done|]. injection He as <-.
    unfold executeCloning. destruct (negb (truthy _)); [by left|].
    destruct (negb (validateUrl _)); [by left|]. right; left. eauto.
  - destruct (_ || _); [|done]. injection He as <-. left. apply resetForm_fetches.
  - destruct (_ && _); [|done]. injection He as <-. left. apply downloadHtml_fetches.
  - injection He as <-. by left.
  - destruct (showAdvanced _); [|done]. injection He as <-. by left.
  - destruct (showAdvanced _); [|done]. injection He as <-. by left.
  - destruct (showAdvanced _); [|done]. injection He as <-. by left.
  - destruct (pending w) as [[]|] eqn:Hp; try done. injection He as <-.
    destruct r as [m|[m|err]|[m|scraped]]; try (by left).
    right; right. exists scraped. done.
  - destruct (pending w) as [[]|]; try done. injection He as <-.
    left. apply cloned_fetches.
  - destruct (timers w); [done|]. injection He as <-. by left.
Qed.

(** C3: the reconstruct call is issued if and only if the capture call
    succeeded before.  On every trace from the loaded page, the bodies of the
    reconstruct requests issued are, in order, the bodies built from the
    capture results that the trace delivered; an event that adds a
    reconstruct request is the delivery of a successful capture response to
    the outstanding capture call, and its payload is the capture result that
    the same step stores in [scrapedData]; and a successful capture response
    to an outstanding capture call always issues the reconstruct request. *)
Theorem C3_reconstruct_iff_capture_succeeded (evs : list Event) (w : World) :
  run evs init = Some w ->
  clone_bodies (fetches w) =
    (fun scraped =>
       {| CloneBody.model := "gpt-4o";
          CloneBody.include_responsive := true;
          CloneBody.include_interactions := true;
          CloneBody.scraped_data := scraped |}) <$> captured evs
  /\ (forall e w' b,
        handle e w = Some w' ->
        fetches w' = fetches w ++ [POST_clone b] ->
        pending w = Some AwaitScrape /\
        e = ScrapeResponse (Ok (Parsed (CloneBody.scraped_data b))) /\
        scrapedData (ui w') = Some (CloneBody.scraped_data b))
  /\ (forall scraped,
        pending w = Some AwaitScrape ->
        exists w',
          handle (ScrapeResponse (Ok (Parsed scraped))) w = Some w' /\
          scrapedData (ui w') = Some scraped /\
          fetches w' = fetches w ++
            [POST_clone
               {| CloneBody.model := "gpt-4o";
                  CloneBody.include_responsive := true;
                  CloneBody.include_interactions := true;
                  CloneBody.scraped_data := scraped |}]).
Proof.
  intros Hr. split_and!.
  - by rewrite (run_clone_bodies _ _ _ Hr).
  - intros e w' b He Hf.
    destruct (handle_fetches _ _ _ He) as [Heq|[(b' & Heq & _)|(s & Heq & -> & Hp & Hs & _)]].
    + rewrite Heq in Hf. rewrite <- (app_nil_r (fetches w)) in Hf at 1.
      by apply app_inv_head in Hf.
    + rewrite Heq in Hf. by apply app_inv_head in Hf.
    + rewrite Heq in Hf. apply app_inv_head in Hf. injection Hf as <-. done.
  - intros scraped Hp. eexists. simpl. rewrite Hp. split_and!; done.
Qed.

Lemma validation_fails (w : World) :
  trim (url (ui w)) = "" \/
  validateUrl (addHttpsIfNeeded (trim (url (ui w)))) = false ->
  executeCloning w =
  setError
    (if decide (trim (url (ui w)) = "") then "Please enter a website URL"
     else "Please enter a valid URL (e.g., https://example.com)") w.
Proof.
  intros H. unfold executeCloning.
  destruct (decide (trim (url (ui w)) = "")) as [He|Hne].
  - by rewrite He.
  - destruct H as [?|Hv]; [done|].
    apply truthy_true in Hne. by rewrite Hne, Hv.
Qed.

Lemma validation_passes (w : World) :
  trim (url (ui w)) <> "" ->
  validateUrl (addHttpsIfNeeded (trim (url (ui w)))) = true ->
  executeCloning w =
  fetch
    (POST_scrape
       {| ScrapeBody.url := addHttpsIfNeeded (trim (url (ui w)));
          ScrapeBody.capture_screenshot := true;
          ScrapeBody.viewport_width := viewportWidth (ui w);
          ScrapeBody.viewport_height := viewportHeight (ui w);
          ScrapeBody.wait_time := waitTime (ui w) |})
    AwaitScrape
    (setCurrentStep "🔍 Analyzing website structure and capturing screenshots..."
       (setPreviewUrl "" (setCloneResult None (setScrapedData None
          (setError "" (setIsLoading true w)))))).
Proof.
  intros Hne%truthy_true Hv. unfold executeCloning. by rewrite Hne, Hv.
Qed.

(** C9: [addHttpsIfNeeded] returns an input that starts with "http://" or
    "https://" unchanged and prepends "https://" to every other input; and
    [executeCloning] validates the normalized form of the trimmed input, which
    is also the address it sends to the capture call. *)
Theorem C9_normalization_prepends_https (s : string) :
  ((exists t, s = "http://" +:+ t) \/ (exists t, s = "https://" +:+ t) ->
   addHttpsIfNeeded s = s)
  /\ (~ (exists t, s = "http://" +:+ t) ->
      ~ (exists t, s = "https://" +:+ t) ->
      addHttpsIfNeeded s = "https://" +:+ s)
  /\ (forall w : World,
        trim (url (ui w)) = s -> s <> "" ->
        if validateUrl (addHttpsIfNeeded s)
        then exists b,
               fetches (executeCloning w) = fetches w ++ [POST_scrape b] /\
               ScrapeBody.url b = addHttpsIfNeeded s
        else fetches (executeCloning w) = fetches w /\
             error (ui (executeCloning w)) =
               "Please enter a valid URL (e.g., https://example.com)").
Proof.
  split_and!.
  - intros H. unfold addHttpsIfNeeded.
    destruct H as [H|H]; apply startsWith_spec in H; rewrite H; [done|].
    by rewrite andb_false_r.
  - intros H1 H2. unfold addHttpsIfNeeded.
    destruct (startsWith s "http://") eqn:E1.
    { by apply startsWith_spec in E1. }
    destruct (startsWith s "https://") eqn:E2.
    { by apply startsWith_spec in E2. }
    done.
  - intros w <- Hne.
    destruct (validateUrl _) eqn:Hv.
    + rewrite validation_passes by done. eexists. split; done.
    + rewrite validation_fails by (by right). by rewrite decide_False.
Qed.

(** C8: when the trimmed input is empty, or its normalized form fails
    [validateUrl], [executeCloning] sets the error message (the one for an
    empty input when the input is empty), issues no request, suspends nothing
    and leaves [isLoading] as it is; an idle page stays idle.  Both ways of
    starting a run lead here: Enter calls [executeCloning], and so does the
    button when it is enabled. *)
Theorem C8_invalid_input_issues_no_capture (w : World) :
  trim (url (ui w)) = "" \/
  validateUrl (addHttpsIfNeeded (trim (url (ui w)))) = false ->
  error (ui (executeCloning w)) =
    (if decide (trim (url (ui w)) = "") then "Please enter a website URL"
     else "Please enter a valid URL (e.g., https://example.com)")
  /\ fetches (executeCloning w) = fetches w
  /\ pending (executeCloning w) = pending w
  /\ isLoading (ui (executeCloning w)) = isLoading (ui w)
  /\ (stage w = Idle -> stage (executeCloning w) = Idle)
  /\ (isLoading (ui w) = false ->
      handle PressEnter w = Some (executeCloning w) /\
      forall w', handle ClickClone w = Some w' -> w' = executeCloning w).
Proof.
  intros H. rewrite (validation_fails w H). split_and!; try done.
  - unfold stage. simpl. destruct (pending w) as [[]|]; try done.
    destruct (startsWith (error (ui w)) _); [done|].
    destruct (cloneResult (ui w)); [done|]. intros _.
    by destruct (decide _).
  - intros Hl. simpl. rewrite Hl. simpl. split.
    + by rewrite (validation_fails w H).
    + destruct (negb _); [done|]. intros w' [= <-].
      by rewrite (validation_fails w H).
Qed.

(** C10: a run that fails validation writes [error] and nothing else: the
    capture result, the reconstruct result, the preview URL and the progress
    text of a previous run are unchanged, and the object-URL store is
    untouched, so no URL is revoked. *)
Theorem C10_rejected_run_keeps_previous_results (w : World) :
  trim (url (ui w)) = "" \/
  validateUrl (addHttpsIfNeeded (trim (url (ui w)))) = false ->
  scrapedData (ui (executeCloning w)) = scrapedData (ui w)
  /\ cloneResult (ui (executeCloning w)) = cloneResult (ui w)
  /\ previewUrl (ui (executeCloning w)) = previewUrl (ui w)
  /\ currentStep (ui (executeCloning w)) = currentStep (ui w)
  /\ objectURLs (executeCloning w) = objectURLs w
  /\ error (ui (executeCloning w)) <> ""
  /\ executeCloning w = setError (error (ui (executeCloning w))) w.
Proof.
  intros H. rewrite (validation_fails w H). split_and!; try done.
  simpl. by destruct (decide _).
Qed.

(** ** Failures *)

Lemma Fails_complete {A} (generic : string) (r : Response A) :
  (exists value, r = Ok (Parsed value)) \/ (exists message, Fails generic r message).
Proof.
  destruct r as [m|[m|[[d|]]]|[m|v]]; eauto using @Fails.
  right. destruct (decide (d = "")) as [->|]; eauto using @Fails.
Qed.

Lemma Fails_scraped (w : World) r message :
  Fails "Website scraping failed" r message -> try_scraped r w = Throw message.
Proof.
  intros []; try done. simpl. by rewrite (proj2 (truthy_true d)).
Qed.

Lemma Fails_cloned (w : World) r message :
  Fails "AI cloning failed" r message -> try_cloned r w = Throw message.
Proof.
  intros []; try done. simpl. by rewrite (proj2 (truthy_true d)).
Qed.

Lemma stage_catch (w : World) (message : string) : stage (catch message w) = Failed.
Proof. unfold stage. simpl. by rewrite startsWith_app. Qed.

(** C4, as amended: when the capture call or the reconstruct call fails,
    the run ends failed, and the error is "Failed to clone website: "
    followed by the message of the failure: the [detail] of a failure
    response when it is present and not empty, the stage's generic message
    when the failure response has no [detail] or an empty one, and the message
    of the thrown error itself when the request is rejected or a body cannot
    be read.  Nothing is loading or suspended, no further request is issued,
    no object URL is created and no preview URL or reconstruct result is
    stored.  The stored capture result is left as it is: absent after a
    capture failure, and the capture result just delivered when the
    reconstruct call fails right after a successful capture. *)
Theorem C4_remote_failure_ends_the_run (w w' : World) (message : string) :
  reachable w ->
  (exists r, Fails "Website scraping failed" r message /\
             handle (ScrapeResponse r) w = Some w') \/
  (exists r, Fails "AI cloning failed" r message /\
             handle (CloneResponse r) w = Some w') ->
  stage w' = Failed
  /\ error (ui w') = "Failed to clone website: " +:+ message
  /\ contains (error (ui w')) message
  /\ isLoading (ui w') = false
  /\ pending w' = None
  /\ fetches w' = fetches w
  /\ objectURLs w' = objectURLs w
  /\ previewUrl (ui w') = ""
  /\ cloneResult (ui w') = None
  /\ scrapedData (ui w') = scrapedData (ui w)
  /\ (pending w = Some AwaitScrape -> scrapedData (ui w') = None)
  /\ (forall w0 scraped,
        handle (ScrapeResponse (Ok (Parsed scraped))) w0 = Some w ->
        scrapedData (ui w') = Some scraped).
Proof.
  intros HI%reachable_Inv H.
  assert (w' = catch message w /\ pending w <> None) as [-> Hp].
  { destruct H as [(r & Hf & He)|(r & Hf & He)]; simpl in He;
      destruct (pending w) as [[]|]; try done; injection He as <-.
    - unfold executeCloning_scraped. by rewrite (Fails_scraped _ _ _ Hf).
    - unfold executeCloning_cloned. by rewrite (Fails_cloned _ _ _ Hf). }
  destruct (inv_inflight _ HI Hp) as [Hc Hu].
  split_and!; try done.
  - apply stage_catch.
  - exists "Failed to clone website: ", "". by rewrite append_empty_r.
  - intros Hs. simpl. by apply (inv_capturing _ HI).
  - intros w0 scraped H0. simpl in H0.
    destruct (pending w0) as [[]|]; try done. by injection H0 as <-.
Qed.

(** C5: in every reachable world, [resetForm] leaves the address, the
    capture result, the reconstruct result, the error, the progress text and
    the preview URL empty.  With no preview URL the object-URL store is
    unchanged; with one, that URL was live and had not been revoked, and it
    is revoked exactly once and gone from the store.  No URL is ever revoked
    twice, and revoking a URL a second time leaves the store of live URLs as
    the first revocation left it. *)
Theorem C5_reset_clears_and_releases_once (w : World) :
  reachable w ->
  url (ui (resetForm w)) = ""
  /\ scrapedData (ui (resetForm w)) = None
  /\ cloneResult (ui (resetForm w)) = None
  /\ error (ui (resetForm w)) = ""
  /\ currentStep (ui (resetForm w)) = ""
  /\ previewUrl (ui (resetForm w)) = ""
  /\ (previewUrl (ui w) = "" -> objectURLs (resetForm w) = objectURLs w)
  /\ (previewUrl (ui w) <> "" ->
      is_Some (live (objectURLs w) !! previewUrl (ui w)) /\
      (previewUrl (ui w) ∉ revoked (objectURLs w)) /\
      revoked (objectURLs (resetForm w)) =
        revoked (objectURLs w) ++ [previewUrl (ui w)] /\
      live (objectURLs (resetForm w)) =
        delete (previewUrl (ui w)) (live (objectURLs w)) /\
      live (objectURLs (resetForm w)) !! previewUrl (ui w) = None)
  /\ NoDup (revoked (objectURLs (resetForm w)))
  /\ (forall u w0,
        live (objectURLs (revokeObjectURL u (revokeObjectURL u w0))) =
        live (objectURLs (revokeObjectURL u w0))).
Proof.
  intros Hr. pose proof (reachable_Inv _ Hr) as HI.
  pose proof (Inv_resetForm _ HI) as HI'.
  split_and!; try (unfold resetForm; by destruct (truthy _)).
  - intros Hp. unfold resetForm. rewrite Hp. simpl. by destruct (objectURLs w).
  - intros Hp. pose proof (inv_preview _ HI Hp) as Hlive.
    unfold resetForm. rewrite (proj2 (truthy_true _) Hp). simpl.
    split_and!; try done.
    + intros Hin. destruct (inv_revoked _ HI _ Hin) as [_ Hn].
      destruct Hlive as [b Hb]. congruence.
    + apply lookup_delete_eq.
  - apply (inv_nodup _ HI').
  - intros u w0. simpl. apply delete_delete_eq.
Qed.

(** C6, as amended: a run on a valid address whose two calls succeed ends
    completed, with the capture result and the reconstruct result stored and
    no error.  When the generated markup is not empty a fresh object URL for
    it is created, stored as the preview URL and live in the store; when the
    markup is empty no object URL is created and the preview URL stays
    empty. *)
Theorem C6_reconstruct_success_completes (w : World)
    (scraped : ScrapedData.t) (cloneData : CloneResult.t) :
  isLoading (ui w) = false ->
  trim (url (ui w)) <> "" ->
  validateUrl (addHttpsIfNeeded (trim (url (ui w)))) = true ->
  exists w',
    run [PressEnter; ScrapeResponse (Ok (Parsed scraped));
         CloneResponse (Ok (Parsed cloneData))] w = Some w'
    /\ stage w' = Completed
    /\ scrapedData (ui w') = Some scraped
    /\ cloneResult (ui w') = Some cloneData
    /\ error (ui w') = ""
    /\ isLoading (ui w') = false
    /\ (CloneResult.html_content cloneData <> "" ->
        previewUrl (ui w') = blob_url (created (objectURLs w)) /\
        previewUrl (ui w') <> "" /\
        live (objectURLs w') !! previewUrl (ui w') =
          Some {| text := CloneResult.html_content cloneData;
                  type := "text/html" |})
    /\ (CloneResult.html_content cloneData = "" ->
        previewUrl (ui w') = "" /\ objectURLs w' = objectURLs w).
Proof.
  intros Hl Hne Hv. eexists. split.
  { simpl. rewrite Hl, (validation_passes w Hne Hv). simpl. reflexivity. }
  unfold executeCloning_cloned, executeCloning_scraped. simpl.
  destruct (truthy (CloneResult.html_content cloneData)) eqn:Ht; simpl.
  - apply truthy_true in Ht.
    split_and!; try done; intros _; split_and!;
      first [done | apply blob_url_nonempty | apply lookup_insert_eq].
  - apply truthy_false in Ht.
    split_and!; try done; intros _; split;
      first [done | by destruct (objectURLs w)].
Qed.

(** C2, as amended: the code has no run identifier and discards no
    response.  Reset cannot be clicked while the capture call is outstanding
    (the button is not rendered then).  Reset while the reconstruct call is
    outstanding leaves the call outstanding, and its response is then applied
    to the cleared state: a success stores the reconstruct result (and a
    preview URL when the markup is not empty), a failure sets the error, and
    both end the loading. *)
Theorem C2_response_after_reset_is_applied (w : World) :
  reachable w ->
  (pending w = Some AwaitScrape -> handle ClickReset w = None)
  /\ (pending w = Some AwaitClone ->
      pending (resetForm w) = Some AwaitClone /\
      forall r,
        handle (CloneResponse r) (resetForm w) =
          Some (executeCloning_cloned r (resetForm w)) /\
        isLoading (ui (executeCloning_cloned r (resetForm w))) = false /\
        (forall cloneData,
           r = Ok (Parsed cloneData) ->
           cloneResult (ui (executeCloning_cloned r (resetForm w))) =
             Some cloneData /\
           (CloneResult.html_content cloneData <> "" ->
            previewUrl (ui (executeCloning_cloned r (resetForm w))) <> "")) /\
        (forall message,
           Fails "AI cloning failed" r message ->
           error (ui (executeCloning_cloned r (resetForm w))) =
             "Failed to clone website: " +:+ message)).
Proof.
  intros HI%reachable_Inv. split.
  - intros Hp. simpl. rewrite (inv_capturing _ HI Hp).
    destruct (inv_inflight _ HI) as [-> _]; [by rewrite Hp|]. done.
  - intros Hp.
    assert (pending (resetForm w) = Some AwaitClone) as Hp'.
    { unfold resetForm. by destruct (truthy _). }
    split; [done|]. intros r. split_and!.
    + simpl. by rewrite Hp'.
    + unfold executeCloning_cloned. by destruct (try_cloned _ _).
    + intros cloneData ->. unfold executeCloning_cloned. simpl.
      destruct (truthy (CloneResult.html_content cloneData)) eqn:Ht; simpl.
      * split; [done|]. intros _. apply blob_url_nonempty.
      * apply truthy_false in Ht. done.
    + intros message Hf. unfold executeCloning_cloned.
      by rewrite (Fails_cloned _ _ _ Hf).
Qed.
End Properties.

(** ** The handlers and the object-URL store *)

(** [executeCloning] never calls [URL.revokeObjectURL] or
    [URL.createObjectURL]. *)
Lemma executeCloning_objectURLs {P : Platform} (w : World) :
  objectURLs (executeCloning w) = objectURLs w.
Proof.
  unfold executeCloning.
  destruct (negb (truthy _)); [done|]. by destruct (negb (validateUrl _)).
Qed.

(** The number inputs store what is entered as it is. *)
Lemma viewport_edits_are_stored {P : Platform} (w w' : World) (value : Z) :
  (handle (ChangeViewportWidth value) w = Some w' -> viewportWidth (ui w') = value)
  /\ (handle (ChangeViewportHeight value) w = Some w' -> viewportHeight (ui w') = value)
  /\ (handle (ChangeWaitTime value) w = Some w' -> waitTime (ui w') = value).
Proof.
  simpl. destruct (showAdvanced (ui w)); split_and!; intros [= <-]; done.
Qed.

(** ** Runs of the sample traces *)

Example trim_spaces : trim "  example.com	 " = "example.com".
Proof. reflexivity. Qed.

Example trim_blank : trim "   " = "".
Proof. reflexivity. Qed.

Example normalize_bare : addHttpsIfNeeded "example.com" = "https://example.com".
Proof. reflexivity. Qed.

Example normalize_http : addHttpsIfNeeded "http://example.com" = "http://example.com".
Proof. reflexivity. Qed.

Example normalize_upper : addHttpsIfNeeded "HTTP://a" = "https://HTTP://a".
Proof. reflexivity. Qed.

Lemma run_after (evs : list Event) :
  is_some (run (P := simplePlatform) evs init) = true ->
  run (P := simplePlatform) evs init = Some (after evs).
Proof. unfold after. by destruct (run evs init). Qed.

Lemma reachable_after (evs : list Event) :
  is_some (run (P := simplePlatform) evs init) = true ->
  reachable (P := simplePlatform) (after evs).
Proof. intros H. exists evs. by apply run_after. Qed.

(** Scenario A: "example.com" is normalized to "https://example.com", both
    calls succeed and the page shows the results. *)
Example scenario_A :
  run (P := simplePlatform) trace_completed init = Some (after trace_completed)
  /\ fetches (after trace_completed) =
       [POST_scrape
          {| ScrapeBody.url := "https://example.com";
             ScrapeBody.capture_screenshot := true;
             ScrapeBody.viewport_width := 1280;
             ScrapeBody.viewport_height := 720;
             ScrapeBody.wait_time := 8000 |};
        POST_clone (clone_body sampleScraped)]
  /\ stage (after trace_completed) = Completed
  /\ scrapedData (ui (after trace_completed)) = Some sampleScraped
  /\ cloneResult (ui (after trace_completed)) = Some (sampleClone "<p>hi</p>")
  /\ previewUrl (ui (after trace_completed)) = "blob:0".
Proof. vm_compute. split_and!; reflexivity. Qed.

(** C1: the code at the failing input.  The first run stores the preview URL
    "blob:0".  The second run passes validation and clears the capture
    result, the reconstruct result, the error and the preview URL, but does
    not revoke "blob:0": it is still live when the capture request of the
    second run has been issued, and still live, and never revoked, after the
    second run is completed and reset, which revokes "blob:1" only. *)
Theorem C1_replaced_preview_url_is_never_revoked :
  run (P := simplePlatform) trace_completed init = Some (after trace_completed)
  /\ previewUrl (ui (after trace_completed)) = "blob:0"
  /\ run (P := simplePlatform) (trace_completed ++ [ClickClone]) init =
       Some (after (trace_completed ++ [ClickClone]))
  /\ length (fetches (after (trace_completed ++ [ClickClone]))) = 3%nat
  /\ scrapedData (ui (after (trace_completed ++ [ClickClone]))) = None
  /\ cloneResult (ui (after (trace_completed ++ [ClickClone]))) = None
  /\ error (ui (after (trace_completed ++ [ClickClone]))) = ""
  /\ previewUrl (ui (after (trace_completed ++ [ClickClone]))) = ""
  /\ live (objectURLs (after (trace_completed ++ [ClickClone]))) !! "blob:0" =
       Some {| text := "<p>hi</p>"; type := "text/html" |}
  /\ revoked (objectURLs (after (trace_completed ++ [ClickClone]))) = []
  /\ run (P := simplePlatform) trace_second_run init = Some (after trace_second_run)
  /\ live (objectURLs (after trace_second_run)) !! "blob:0" =
       Some {| text := "<p>hi</p>"; type := "text/html" |}
  /\ revoked (objectURLs (after trace_second_run)) = ["blob:1"].
Proof. vm_compute. split_and!; reflexivity. Qed.

(** C7: the code at the failing input.  The page starts with the defaults
    1280, 720 and 8000.  A width of 5000 entered in the Viewport Width input
    is stored as it is, and the capture request of the next run carries it,
    above the bound 1920. *)
Theorem C7_out_of_range_width_reaches_capture :
  viewportWidth (ui init) = 1280
  /\ viewportHeight (ui init) = 720
  /\ waitTime (ui init) = 8000
  /\ run (P := simplePlatform)
       [ToggleAdvanced; ChangeViewportWidth 5000; ChangeUrl "example.com";
        ClickClone] init =
     Some (after [ToggleAdvanced; ChangeViewportWidth 5000;
                  ChangeUrl "example.com"; ClickClone])
  /\ viewportWidth
       (ui (after [ToggleAdvanced; ChangeViewportWidth 5000])) = 5000
  /\ fetches (after [ToggleAdvanced; ChangeViewportWidth 5000;
                     ChangeUrl "example.com"; ClickClone]) =
       [POST_scrape
          {| ScrapeBody.url := "https://example.com";
             ScrapeBody.capture_screenshot := true;
             ScrapeBody.viewport_width := 5000;
             ScrapeBody.viewport_height := 720;
             ScrapeBody.wait_time := 8000 |}]
  /\ 1920 < 5000.
Proof. vm_compute. split_and!; reflexivity. Qed.

(** C2, the claim as stated fails: Reset while the reconstruct call is
    outstanding clears the state, and the response that arrives afterwards is
    written into the cleared state. *)
Lemma C2_late_reconstruct_response_is_applied :
  run (P := simplePlatform) (trace_analyzing ++ [ClickReset]) init =
    Some (after (trace_analyzing ++ [ClickReset]))
  /\ url (ui (after (trace_analyzing ++ [ClickReset]))) = ""
  /\ scrapedData (ui (after (trace_analyzing ++ [ClickReset]))) = None
  /\ cloneResult (ui (after (trace_analyzing ++ [ClickReset]))) = None
  /\ previewUrl (ui (after (trace_analyzing ++ [ClickReset]))) = ""
  /\ run (P := simplePlatform)
       (trace_analyzing ++
        [ClickReset; CloneResponse (Ok (Parsed (sampleClone "<p>hi</p>")))])
       init =
     Some (after (trace_analyzing ++
        [ClickReset; CloneResponse (Ok (Parsed (sampleClone "<p>hi</p>")))]))
  /\ cloneResult (ui (after (trace_analyzing ++
        [ClickReset; CloneResponse (Ok (Parsed (sampleClone "<p>hi</p>")))]))) =
     Some (sampleClone "<p>hi</p>")
  /\ previewUrl (ui (after (trace_analyzing ++
        [ClickReset; CloneResponse (Ok (Parsed (sampleClone "<p>hi</p>")))]))) =
     "blob:0"
  /\ scrapedData (ui (after (trace_analyzing ++
        [ClickReset; CloneResponse (Ok (Parsed (sampleClone "<p>hi</p>")))]))) =
     None.
Proof. vm_compute. split_and!; reflexivity. Qed.

(** C6, the claim as stated fails: with empty markup the run is completed
    with no preview URL, and no object URL has been created. *)
Lemma C6_empty_markup_gets_no_preview_url :
  run (P := simplePlatform)
    (trace_analyzing ++ [CloneResponse (Ok (Parsed (sampleClone "")))]) init =
  Some (after (trace_analyzing ++ [CloneResponse (Ok (Parsed (sampleClone "")))]))
  /\ stage (after (trace_analyzing ++
        [CloneResponse (Ok (Parsed (sampleClone "")))])) = Completed
  /\ scrapedData (ui (after (trace_analyzing ++
        [CloneResponse (Ok (Parsed (sampleClone "")))]))) = Some sampleScraped
  /\ cloneResult (ui (after (trace_analyzing ++
        [CloneResponse (Ok (Parsed (sampleClone "")))]))) = Some (sampleClone "")
  /\ previewUrl (ui (after (trace_analyzing ++
        [CloneResponse (Ok (Parsed (sampleClone "")))]))) = ""
  /\ created (objectURLs (after (trace_analyzing ++
        [CloneResponse (Ok (Parsed (sampleClone "")))]))) = 0%nat.
Proof. vm_compute. split_and!; reflexivity. Qed.

(** C4, the claim as stated fails: when [fetch] is rejected (a transport
    failure) there is no error body, and the error shown is neither a
    [detail] nor the generic message of the stage but the message of the
    rejection, at the capture stage as at the reconstruct stage. *)
Lemma C4_transport_failure_shows_the_thrown_message :
  run (P := simplePlatform)
    (trace_capturing ++ [ScrapeResponse (Rejected "Failed to fetch")]) init =
  Some (after (trace_capturing ++ [ScrapeResponse (Rejected "Failed to fetch")]))
  /\ error (ui (after (trace_capturing ++
        [ScrapeResponse (Rejected "Failed to fetch")]))) =
     "Failed to clone website: Failed to fetch"
  /\ error (ui (after (trace_capturing ++
        [ScrapeResponse (Rejected "Failed to fetch")]))) <>
     "Failed to clone website: Website scraping failed"
  /\ run (P := simplePlatform)
       (trace_analyzing ++ [CloneResponse (Rejected "Failed to fetch")]) init =
     Some (after (trace_analyzing ++ [CloneResponse (Rejected "Failed to fetch")]))
  /\ error (ui (after (trace_analyzing ++
        [CloneResponse (Rejected "Failed to fetch")]))) =
     "Failed to clone website: Failed to fetch"
  /\ error (ui (after (trace_analyzing ++
        [CloneResponse (Rejected "Failed to fetch")]))) <>
     "Failed to clone website: AI cloning failed".
Proof. vm_compute. split_and!; first [reflexivity | discriminate]. Qed.

(** ** The theorems at the sample traces *)

(** C2 at the world in which the reconstruct call of the sample run is
    outstanding. *)
Lemma C2_witness :
  reachable (P := simplePlatform) (after trace_analyzing)
  /\ pending (after trace_analyzing) = Some AwaitClone
  /\ cloneResult
       (ui (executeCloning_cloned (Ok (Parsed (sampleClone "<p>hi</p>")))
              (resetForm (after trace_analyzing)))) =
     Some (sampleClone "<p>hi</p>").
Proof.
  assert (reachable (P := simplePlatform) (after trace_analyzing)) as Hr
    by (apply reachable_after; reflexivity).
  split; [exact Hr|]. split; [reflexivity|].
  destruct (@C2_response_after_reset_is_applied simplePlatform _ Hr) as [_ H].
  destruct H as [_ H]; [reflexivity|].
  destruct (H (Ok (Parsed (sampleClone "<p>hi</p>")))) as (_ & _ & Hc & _).
  destruct (Hc _ eq_refl) as [Hc' _]. exact Hc'.
Defined.

(** C3 at the completed sample run. *)
Lemma C3_witness :
  run (P := simplePlatform) trace_completed init = Some (after trace_completed)
  /\ clone_bodies (fetches (after trace_completed)) = [clone_body sampleScraped].
Proof.
  assert (run (P := simplePlatform) trace_completed init =
          Some (after trace_completed)) as Hr
    by (apply run_after; reflexivity).
  split; [exact Hr|].
  destruct (@C3_reconstruct_iff_capture_succeeded simplePlatform _ _ Hr)
    as [Heq _].
  rewrite Heq. reflexivity.
Defined.

(** C4 at Scenario C: the capture call answers with a failure whose body is
    {"detail":"timeout"}. *)
Lemma C4_witness :
  reachable (P := simplePlatform) (after trace_capturing)
  /\ error (ui (after (trace_capturing ++
       [ScrapeResponse (NotOk (Parsed {| detail := Some "timeout" |}))]))) =
     "Failed to clone website: timeout"
  /\ contains
       (error (ui (after (trace_capturing ++
          [ScrapeResponse (NotOk (Parsed {| detail := Some "timeout" |}))]))))
       "timeout"
  /\ fetches (after (trace_capturing ++
       [ScrapeResponse (NotOk (Parsed {| detail := Some "timeout" |}))])) =
     fetches (after trace_capturing).
Proof.
  assert (reachable (P := simplePlatform) (after trace_capturing)) as Hr
    by (apply reachable_after; reflexivity).
  split; [exact Hr|].
  destruct (@C4_remote_failure_ends_the_run simplePlatform
              (after trace_capturing)
              (after (trace_capturing ++
                 [ScrapeResponse (NotOk (Parsed {| detail := Some "timeout" |}))]))
              "timeout" Hr)
    as (_ & He & Hc & _ & _ & Hf & _).
  - left. exists (NotOk (Parsed {| detail := Some "timeout" |})). split.
    + apply fails_detail. discriminate.
    + reflexivity.
  - split; [exact He|]. split; [exact Hc|exact Hf].
Defined.

(** C4 at Scenario D: the capture call succeeds and the reconstruct call is
    rejected; the capture result stays readable. *)
Example scenario_D :
  stage (after (trace_analyzing ++ [CloneResponse (Rejected "Failed to fetch")])) =
    Failed
  /\ scrapedData
       (ui (after (trace_analyzing ++ [CloneResponse (Rejected "Failed to fetch")]))) =
     Some sampleScraped
  /\ previewUrl
       (ui (after (trace_analyzing ++ [CloneResponse (Rejected "Failed to fetch")]))) =
     "".
Proof. vm_compute. split_and!; reflexivity. Qed.

(** C5 at Scenario E: Reset after the completed sample run. *)
Lemma C5_witness :
  reachable (P := simplePlatform) (after trace_completed)
  /\ previewUrl (ui (after trace_completed)) = "blob:0"
  /\ scrapedData (ui (resetForm (after trace_completed))) = None
  /\ cloneResult (ui (resetForm (after trace_completed))) = None
  /\ previewUrl (ui (resetForm (after trace_completed))) = ""
  /\ revoked (objectURLs (resetForm (after trace_completed))) =
       revoked (objectURLs (after trace_completed)) ++
       [previewUrl (ui (after trace_completed))].
Proof.
  assert (reachable (P := simplePlatform) (after trace_completed)) as Hr
    by (apply reachable_after; reflexivity).
  split; [exact Hr|]. split; [reflexivity|].
  destruct (@C5_reset_clears_and_releases_once simplePlatform _ Hr)
    as (_ & Hs & Hc & _ & _ & Hu & _ & Hrel & _).
  split; [exact Hs|]. split; [exact Hc|]. split; [exact Hu|].
  destruct Hrel as (_ & _ & Hrev & _); [vm_compute; discriminate|]. exact Hrev.
Defined.

(** C6 at Scenario A, from the page on which "example.com" has been typed. *)
Lemma C6_witness :
  exists w',
    run (P := simplePlatform)
      [PressEnter; ScrapeResponse (Ok (Parsed sampleScraped));
       CloneResponse (Ok (Parsed (sampleClone "<p>hi</p>")))]
      (after [ChangeUrl "example.com"]) = Some w'
    /\ stage w' = Completed
    /\ scrapedData (ui w') = Some sampleScraped
    /\ cloneResult (ui w') = Some (sampleClone "<p>hi</p>")
    /\ previewUrl (ui w') = "blob:0".
Proof.
  destruct (@C6_reconstruct_success_completes simplePlatform
              (after [ChangeUrl "example.com"]) sampleScraped
              (sampleClone "<p>hi</p>"))
    as (w' & Hrun & Hst & Hs & Hc & _ & _ & Hhtml & _).
  - reflexivity.
  - vm_compute. discriminate.
  - reflexivity.
  - exists w'. split; [exact Hrun|]. split; [exact Hst|].
    split; [exact Hs|]. split; [exact Hc|].
    destruct Hhtml as [Hu _]; [discriminate|]. exact Hu.
Defined.

(** C8 at Scenario B: Enter on the empty input of the loaded page. *)
Lemma C8_witness :
  error (ui (executeCloning (P := simplePlatform) init)) =
    "Please enter a website URL"
  /\ fetches (executeCloning (P := simplePlatform) init) = []
  /\ stage (executeCloning (P := simplePlatform) init) = Idle.
Proof.
  destruct (@C8_invalid_input_issues_no_capture simplePlatform init)
    as (He & Hf & _ & _ & Hst & _).
  - left. reflexivity.
  - split; [exact He|]. split; [exact Hf|]. apply Hst. reflexivity.
Defined.

(** C10 on the completed sample run, after "not a url" has been typed. *)
Lemma C10_witness :
  validateUrl (P := simplePlatform) "https://not a url" = false
  /\ cloneResult
       (ui (executeCloning (P := simplePlatform)
              (after (trace_completed ++ [ChangeUrl "not a url"])))) =
     cloneResult (ui (after (trace_completed ++ [ChangeUrl "not a url"])))
  /\ previewUrl
       (ui (executeCloning (P := simplePlatform)
              (after (trace_completed ++ [ChangeUrl "not a url"])))) =
     previewUrl (ui (after (trace_completed ++ [ChangeUrl "not a url"])))
  /\ previewUrl (ui (after (trace_completed ++ [ChangeUrl "not a url"]))) =
     "blob:0".
Proof.
  split; [reflexivity|].
  destruct (@C10_rejected_run_keeps_previous_results simplePlatform
              (after (trace_completed ++ [ChangeUrl "not a url"])))
    as (_ & Hc & Hu & _).
  - right. reflexivity.
  - split; [exact Hc|]. split; [exact Hu|reflexivity].
Defined.

(** * Further properties *)

Section MoreProperties.
Context {P : Platform}.

(** ** Steps and traces *)

Lemma handle_Step (e : Event) (w w' : World) :
  handle e w = Some w' <-> Step w e w'.
Proof.
  split.
  - intros He. destruct e; simpl in He.
    + destruct (isLoading (ui w)) eqn:Hl; [done|]. injection He as <-.
      by constructor.
    + destruct (isLoading (ui w)) eqn:Hl; [done|]. injection He as <-.
      by constructor.
    + destruct (isLoading (ui w) || negb (truthy (trim (url (ui w))))) eqn:Hd;
        [done|]. injection He as <-. by constructor.
    + destruct (_ || _) eqn:Hd; [|done]. injection He as <-. by constructor.
    + destruct (_ && _) eqn:Hd; [|done]. injection He as <-. by constructor.
    + injection He as <-. constructor.
    + destruct (showAdvanced (ui w)) eqn:Ha; [|done]. injection He as <-.
      by constructor.
    + destruct (showAdvanced (ui w)) eqn:Ha; [|done]. injection He as <-.
      by constructor.
    + destruct (showAdvanced (ui w)) eqn:Ha; [|done]. injection He as <-.
      by constructor.
    + destruct (pending w) as [[]|] eqn:Hp; try done. injection He as <-.
      by constructor.
    + destruct (pending w) as [[]|] eqn:Hp; try done. injection He as <-.
      by constructor.
    + destruct (timers w) eqn:Ht; [done|]. injection He as <-.
      constructor. lia.
  - intros []; simpl;
      rewrite ?H; try done.
    + unfold cloneDisabled in H. by rewrite H.
    + unfold showsReset in H. by rewrite H.
    + unfold showsResults in H. by rewrite H.
    + destruct (timers w); [lia|done].
Qed.

Lemma run_app (evs1 evs2 : list Event) (w : World) :
  run (evs1 ++ evs2) w =
  match run evs1 w with Some w1 => run evs2 w1 | None => None end.
Proof.
  revert w. induction evs1 as [|e evs1 IH]; intros w; simpl; [done|].
  by destruct (handle e w).
Qed.

(** Induction on the traces from the loaded page, one event at a time. *)
Lemma run_ind (Q : list Event -> World -> Prop) :
  Q [] init ->
  (forall evs e w w',
     run evs init = Some w -> Q evs w -> Step w e w' -> Q (evs ++ [e]) w') ->
  forall evs w, run evs init = Some w -> Q evs w.
Proof.
  intros H0 Hstep evs. induction evs as [|e evs IH] using rev_ind; intros w Hr.
  - injection Hr as <-. done.
  - rewrite run_app in Hr. destruct (run evs init) as [w1|] eqn:Hr1; [|done].
    simpl in Hr. destruct (handle e w1) as [w2|] eqn:He; [|done].
    injection Hr as <-. eapply Hstep; [done|by apply IH|by apply handle_Step].
Qed.

Lemma reachable_ind (Q : World -> Prop) :
  Q init ->
  (forall e w w', reachable w -> Q w -> Step w e w' -> Q w') ->
  forall w, reachable w -> Q w.
Proof.
  intros H0 Hstep w [evs Hr]. revert evs w Hr.
  apply (run_ind (fun _ w => Q w)); [done|].
  intros evs e w w' Hr HQ Hs. eapply Hstep; [by exists evs|done|done].
Qed.

(** ** The handlers, case by case *)

Lemma executeCloning_spec (w : World) :
  (exists message,
     (message = "Please enter a website URL" \/
      message = "Please enter a valid URL (e.g., https://example.com)") /\
     executeCloning w = setError message w)
  \/ (trim (url (ui w)) <> "" /\
      validateUrl (addHttpsIfNeeded (trim (url (ui w)))) = true /\
      executeCloning w =
      fetch
        (POST_scrape
           {| ScrapeBody.url := addHttpsIfNeeded (trim (url (ui w)));
              ScrapeBody.capture_screenshot := true;
              ScrapeBody.viewport_width := viewportWidth (ui w);
              ScrapeBody.viewport_height := viewportHeight (ui w);
              ScrapeBody.wait_time := waitTime (ui w) |})
        AwaitScrape
        (setCurrentStep
           "🔍 Analyzing website structure and capturing screenshots..."
           (setPreviewUrl "" (setCloneResult None (setScrapedData None
              (setError "" (setIsLoading true w))))))).
Proof.
  destruct (decide (trim (url (ui w)) = "")) as [He|Hne].
  { left. eexists. split; [|apply validation_fails; by left].
    rewrite decide_True by done. by left. }
  destruct (validateUrl (addHttpsIfNeeded (trim (url (ui w))))) eqn:Hv.
  - right. split_and!; [done..|]. by apply validation_passes.
  - left. eexists. split; [|apply validation_fails; by right].
    rewrite decide_False by done. by right.
Qed.

Lemma scraped_cases (r : Response ScrapedData.t) (w : World) :
  (exists message, executeCloning_scraped r w = catch message w)
  \/ (exists scraped,
        r = Ok (Parsed scraped) /\
        executeCloning_scraped r w =
        fetch (POST_clone (clone_body scraped)) AwaitClone
          (setCurrentStep "🤖 AI analyzing design and generating HTML clone..."
             (setScrapedData (Some scraped) w))).
Proof.
  destruct r as [m|[m|e]|[m|scraped]]; try (left; by eexists).
  right. by eexists.
Qed.

Lemma cloned_cases (r : Response CloneResult.t) (w : World) :
  (exists message, executeCloning_cloned r w = catch message w)
  \/ (exists c,
        r = Ok (Parsed c) /\ CloneResult.html_content c = "" /\
        executeCloning_cloned r w =
        finally (setTimeout
          (setCurrentStep "✅ Website cloning completed successfully!"
             (setCloneResult (Some c) w))))
  \/ (exists c,
        r = Ok (Parsed c) /\ CloneResult.html_content c <> "" /\
        executeCloning_cloned r w =
        finally (setTimeout
          (setCurrentStep "✅ Website cloning completed successfully!"
             (setPreviewUrl (blob_url (created (objectURLs w)))
                (with_store
                   {| created := S (created (objectURLs w));
                      live :=
                        <[blob_url (created (objectURLs w)) :=
                            {| text := CloneResult.html_content c;
                               type := "text/html" |}]>
                          (live (objectURLs w));
                      revoked := revoked (objectURLs w) |}
                   (setCloneResult (Some c) w)))))).
Proof.
  destruct r as [m|[m|e]|[m|c]]; try (left; by eexists).
  right. unfold executeCloning_cloned, try_cloned, json.
  destruct (truthy (CloneResult.html_content c)) eqn:Ht.
  - right. exists c. apply truthy_true in Ht. done.
  - left. exists c. apply truthy_false in Ht. done.
Qed.


(** ** The second invariant holds in every reachable world *)

Lemma Inv2_init : Inv2 init.
Proof.
  split; simpl; try done; try (by left).
Qed.

Lemma Inv2_frame (w w' : World) :
  Inv2 w ->
  objectURLs w' = objectURLs w ->
  pending w' = pending w ->
  error (ui w') = error (ui w) ->
  cloneResult (ui w') = cloneResult (ui w) ->
  previewUrl (ui w') = previewUrl (ui w) ->
  Inv2 w'.
Proof.
  intros [He Hs Hp Hc Hb] Eo Ep Ee Ec Eu.
  split; rewrite ?Eo, ?Ep, ?Ee, ?Ec, ?Eu; done.
Qed.

Lemma Inv2_catch (w : World) (message : string) :
  Inv2 w -> Inv2 (catch message w).
Proof.
  intros [He Hs Hp Hc Hb]. unfold catch, finally. split; simpl; try done.
  right; right; right. by eexists.
Qed.

Lemma Inv2_executeCloning (w : World) :
  Inv w -> Inv2 w -> isLoading (ui w) = false -> Inv2 (executeCloning w).
Proof.
  intros HI [He Hs Hp Hc Hb] Hl.
  assert (pending w = None) as Hpend.
  { pose proof (inv_loading _ HI) as H. rewrite Hl in H.
    by destruct (pending w). }
  destruct (executeCloning_spec w) as [(m & Hm & ->)|(_ & _ & ->)].
  - split; simpl; try done.
    destruct Hm as [->| ->]; auto.
  - split; simpl; try done. by left.
Qed.

Lemma Inv2_resetForm (w : World) : Inv w -> Inv2 w -> Inv2 (resetForm w).
Proof.
  intros HI [He Hs Hp Hc Hb]. unfold resetForm.
  destruct (truthy (previewUrl (ui w))) eqn:Ht.
  - apply truthy_true in Ht. pose proof (inv_preview _ HI Ht) as Hlive.
    unfold revokeObjectURL. split; simpl; try done.
    + by left.
    + rewrite length_app, map_size_delete_Some by done. simpl.
      destruct Hlive as [b Hlive].
      assert (size (live (objectURLs w)) <> 0%nat) as Hne.
      { intros Hz%map_size_empty_inv. rewrite Hz in Hlive.
        by rewrite lookup_empty in Hlive. }
      lia.
    + intros u b [_ Hu]%lookup_delete_Some. eauto.
  - split; simpl; try done. by left.
Qed.

Lemma fresh_not_live (w : World) :
  Inv w -> live (objectURLs w) !! blob_url (created (objectURLs w)) = None.
Proof.
  intros HI. destruct (live (objectURLs w) !! _) as [b|] eqn:Hb; [|done].
  destruct (known_fresh (objectURLs w)). apply (inv_live _ HI). eauto.
Qed.

Lemma downloadHtml_cases (w : World) :
  Inv w ->
  downloadHtml w = w
  \/ (exists c,
        cloneResult (ui w) = Some c /\
        CloneResult.html_content c <> "" /\
        downloadHtml w =
        with_store
          {| created := S (created (objectURLs w));
             live := live (objectURLs w);
             revoked :=
               revoked (objectURLs w) ++ [blob_url (created (objectURLs w))] |}
          w).
Proof.
  intros HI. unfold downloadHtml.
  destruct (cloneResult (ui w)) as [c|]; [|by left].
  destruct (truthy (CloneResult.html_content c)) eqn:Ht; [|by left].
  right. exists c. apply truthy_true in Ht. split_and!; [done..|].
  unfold createObjectURL, revokeObjectURL, with_store. simpl.
  by rewrite delete_insert_id by by apply fresh_not_live.
Qed.

Lemma Inv2_downloadHtml (w : World) : Inv w -> Inv2 w -> Inv2 (downloadHtml w).
Proof.
  intros HI H2. destruct (downloadHtml_cases w HI) as [->|(c & _ & _ & ->)];
    [done|].
  destruct H2 as [He Hs Hp Hc Hb]. split; simpl; try done.
  rewrite length_app. simpl. lia.
Qed.

Lemma Inv2_scraped (w : World) (r : Response ScrapedData.t) :
  Inv2 w -> pending w = Some AwaitScrape -> Inv2 (executeCloning_scraped r w).
Proof.
  intros H2 Hpend.
  destruct (scraped_cases r w) as [(m & ->)|(s & _ & ->)];
    [by apply Inv2_catch|].
  destruct H2 as [He Hs Hp Hc Hb]. split; simpl; try done.
  intros _. apply He. by rewrite Hpend.
Qed.

Lemma Inv2_cloned (w : World) (r : Response CloneResult.t) :
  Inv w -> Inv2 w -> pending w = Some AwaitClone ->
  Inv2 (executeCloning_cloned r w).
Proof.
  intros HI H2 Hpend.
  destruct (inv_inflight _ HI) as [_ Hu]; [by rewrite Hpend|].
  destruct (cloned_cases r w) as [(m & ->)|[(c & _ & _ & ->)|(c & _ & Hne & ->)]];
    [by apply Inv2_catch| |].
  - destruct H2 as [He Hs Hp Hc Hb]. unfold finally.
    split; simpl; try done.
  - pose proof (fresh_not_live w HI) as Hfresh.
    destruct H2 as [He Hs Hp Hc Hb]. unfold finally.
    split; simpl; try done.
    + intros _. exists c. by rewrite lookup_insert_eq.
    + rewrite map_size_insert_None by done. lia.
    + intros u b [[_ <-]|[_ Hb']]%lookup_insert_Some; [done|eauto].
Qed.

Lemma Inv2_Step (e : Event) (w w' : World) :
  Inv w -> Inv2 w -> Step w e w' -> Inv2 w'.
Proof.
  intros HI H2 Hs. destruct Hs.
  - eapply Inv2_frame; eauto.
  - by apply Inv2_executeCloning.
  - apply Inv2_executeCloning; [done..|].
    unfold cloneDisabled in H. by destruct (isLoading (ui w)).
  - by apply Inv2_resetForm.
  - by apply Inv2_downloadHtml.
  - eapply Inv2_frame; eauto.
  - eapply Inv2_frame; eauto.
  - eapply Inv2_frame; eauto.
  - eapply Inv2_frame; eauto.
  - by apply Inv2_scraped.
  - by apply Inv2_cloned.
  - eapply Inv2_frame; eauto.
Qed.

Lemma reachable_Inv2 (w : World) : reachable w -> Inv2 w.
Proof.
  revert w. apply reachable_ind; [apply Inv2_init|].
  intros e w w' Hr H2 Hs. eapply Inv2_Step; [by apply reachable_Inv|done..].
Qed.


(** ** The cells that each handler leaves alone *)

Lemma catch_ui (w : World) (message : string) :
  url (ui (catch message w)) = url (ui w)
  /\ viewportWidth (ui (catch message w)) = viewportWidth (ui w)
  /\ viewportHeight (ui (catch message w)) = viewportHeight (ui w)
  /\ waitTime (ui (catch message w)) = waitTime (ui w).
Proof. done. Qed.

Lemma executeCloning_inputs (w : World) :
  url (ui (executeCloning w)) = url (ui w)
  /\ viewportWidth (ui (executeCloning w)) = viewportWidth (ui w)
  /\ viewportHeight (ui (executeCloning w)) = viewportHeight (ui w)
  /\ waitTime (ui (executeCloning w)) = waitTime (ui w).
Proof.
  by destruct (executeCloning_spec w) as [(m & _ & ->)|(_ & _ & ->)].
Qed.

Lemma scraped_inputs (r : Response ScrapedData.t) (w : World) :
  url (ui (executeCloning_scraped r w)) = url (ui w)
  /\ viewportWidth (ui (executeCloning_scraped r w)) = viewportWidth (ui w)
  /\ viewportHeight (ui (executeCloning_scraped r w)) = viewportHeight (ui w)
  /\ waitTime (ui (executeCloning_scraped r w)) = waitTime (ui w).
Proof.
  by destruct (scraped_cases r w) as [(m & ->)|(s & _ & ->)].
Qed.

Lemma cloned_inputs (r : Response CloneResult.t) (w : World) :
  url (ui (executeCloning_cloned r w)) = url (ui w)
  /\ viewportWidth (ui (executeCloning_cloned r w)) = viewportWidth (ui w)
  /\ viewportHeight (ui (executeCloning_cloned r w)) = viewportHeight (ui w)
  /\ waitTime (ui (executeCloning_cloned r w)) = waitTime (ui w).
Proof.
  by destruct (cloned_cases r w)
    as [(m & ->)|[(c & _ & _ & ->)|(c & _ & _ & ->)]].
Qed.

Lemma downloadHtml_ui (w : World) : ui (downloadHtml w) = ui w.
Proof.
  unfold downloadHtml. destruct (cloneResult (ui w)); [|done].
  by destruct (truthy _).
Qed.

Lemma resetForm_inputs (w : World) :
  url (ui (resetForm w)) = ""
  /\ viewportWidth (ui (resetForm w)) = viewportWidth (ui w)
  /\ viewportHeight (ui (resetForm w)) = viewportHeight (ui w)
  /\ waitTime (ui (resetForm w)) = waitTime (ui w).
Proof. unfold resetForm. by destruct (truthy _). Qed.

(** ** What the requests of a trace are built from *)

Lemma entered_snoc {A} (initial : A) (change : A -> Event)
    (evs : list Event) (e : Event) (v : A) :
  entered initial change evs v -> entered initial change (evs ++ [e]) v.
Proof. intros [->|H]; [by left|right]. apply elem_of_app. by left. Qed.

Lemma entered_last {A} (initial : A) (change : A -> Event)
    (evs : list Event) (v : A) :
  entered initial change (evs ++ [change v]) v.
Proof. right. apply elem_of_app. right. by apply list_elem_of_singleton. Qed.

Lemma from_inputs_snoc (evs : list Event) (e : Event) (b : ScrapeBody.t) :
  from_inputs evs b -> from_inputs (evs ++ [e]) b.
Proof.
  intros [(raw & Hin & Hne & Hu) Hv Hs Hw Hh Ht].
  split; try done; try (by apply entered_snoc).
  exists raw. split_and!; [|done..]. apply elem_of_app. by left.
Qed.

(** Any change that keeps the requests and the inputs keeps the trace
    invariant. *)
Lemma TraceInv_frame (evs : list Event) (e : Event) (w w' : World) :
  TraceInv evs w ->
  fetches w' = fetches w ->
  url (ui w') = url (ui w) /\
  viewportWidth (ui w') = viewportWidth (ui w) /\
  viewportHeight (ui w') = viewportHeight (ui w) /\
  waitTime (ui w') = waitTime (ui w) ->
  TraceInv (evs ++ [e]) w'.
Proof.
  intros [Hu Hw Hh Ht Hr] Ef (Eu & Ew & Eh & Et).
  split; rewrite ?Ef, ?Eu, ?Ew, ?Eh, ?Et; try (by apply entered_snoc).
  intros b Hb. by apply from_inputs_snoc, Hr.
Qed.

Lemma TraceInv_executeCloning (evs : list Event) (e : Event) (w : World) :
  TraceInv evs w -> TraceInv (evs ++ [e]) (executeCloning w).
Proof.
  intros HT. pose proof (executeCloning_inputs w) as Hin.
  destruct (executeCloning_spec w) as [(m & _ & Heq)|(Hne & Hv & Heq)].
  { eapply TraceInv_frame; [done| |done]. by rewrite Heq. }
  destruct Hin as (Eu & Ew & Eh & Et). destruct HT as [Hu Hw Hh Ht Hr].
  split; rewrite ?Eu, ?Ew, ?Eh, ?Et; try (by apply entered_snoc).
  rewrite Heq. simpl. intros b [Hb|[= ->]%list_elem_of_singleton]%elem_of_app.
  { by apply from_inputs_snoc, Hr. }
  split; simpl; try done; try (by apply entered_snoc).
  exists (url (ui w)). split_and!; [|done..].
  apply elem_of_app. left. destruct Hu as [Hu|Hu]; [|done].
  rewrite Hu in Hne. by destruct Hne.
Qed.

Lemma TraceInv_Step (evs : list Event) (e : Event) (w w' : World) :
  TraceInv evs w -> Step w e w' -> TraceInv (evs ++ [e]) w'.
Proof.
  intros HT Hs. destruct Hs.
  - destruct HT as [Hu Hw Hh Ht Hr].
    split; simpl; try (by apply entered_snoc); [apply entered_last|].
    intros b Hb. by apply from_inputs_snoc, Hr.
  - by apply TraceInv_executeCloning.
  - by apply TraceInv_executeCloning.
  - destruct (resetForm_inputs w) as (Eu & Ew & Eh & Et).
    destruct HT as [Hu Hw Hh Ht Hr].
    split; rewrite ?Eu, ?Ew, ?Eh, ?Et, ?resetForm_fetches;
      try (by apply entered_snoc); [by left|].
    intros b Hb. by apply from_inputs_snoc, Hr.
  - eapply TraceInv_frame; [done|apply downloadHtml_fetches|].
    by rewrite downloadHtml_ui.
  - by eapply TraceInv_frame.
  - destruct HT as [Hu Hw Hh Ht Hr].
    split; simpl; try (by apply entered_snoc); [apply entered_last|].
    intros b Hb. by apply from_inputs_snoc, Hr.
  - destruct HT as [Hu Hw Hh Ht Hr].
    split; simpl; try (by apply entered_snoc); [apply entered_last|].
    intros b Hb. by apply from_inputs_snoc, Hr.
  - destruct HT as [Hu Hw Hh Ht Hr].
    split; simpl; try (by apply entered_snoc); [apply entered_last|].
    intros b Hb. by apply from_inputs_snoc, Hr.
  - pose proof (scraped_inputs r w) as (Eu & Ew & Eh & Et).
    destruct HT as [Hu Hw Hh Ht Hr].
    split; rewrite ?Eu, ?Ew, ?Eh, ?Et; try (by apply entered_snoc).
    intros b Hb. apply from_inputs_snoc, Hr.
    destruct (scraped_cases r w) as [(m & Heq)|(s & _ & Heq)];
      rewrite Heq in Hb; simpl in Hb; [done|].
    apply elem_of_app in Hb as [Hb|Hb%list_elem_of_singleton]; done.
  - eapply TraceInv_frame; [done|apply cloned_fetches|apply cloned_inputs].
  - by eapply TraceInv_frame.
Qed.

Lemma run_TraceInv (evs : list Event) (w : World) :
  run evs init = Some w -> TraceInv evs w.
Proof.
  revert evs w. apply run_ind.
  - split; simpl; try (by left). intros b Hb. by apply elem_of_nil in Hb.
  - intros evs e w w' _ HT Hs. by eapply TraceInv_Step.
Qed.


(** ** One request at a time *)

(** What a step does to the list of requests and to the suspended call. *)
Lemma Step_requests (e : Event) (w w' : World) :
  Step w e w' ->
  (fetches w' = fetches w /\ (pending w' = pending w \/ pending w' = None))
  \/ (exists b,
        fetches w' = fetches w ++ [POST_scrape b] /\
        pending w' = Some AwaitScrape /\ isLoading (ui w) = false)
  \/ (exists scraped,
        fetches w' = fetches w ++ [POST_clone (clone_body scraped)] /\
        e = ScrapeResponse (Ok (Parsed scraped)) /\
        pending w = Some AwaitScrape /\ pending w' = Some AwaitClone).
Proof.
  intros Hs. destruct Hs.
  - left. by split; [|left].
  - destruct (executeCloning_spec w) as [(m & _ & ->)|(_ & _ & ->)].
    + left. by split; [|left].
    + right; left. by eexists.
  - assert (isLoading (ui w) = false) as Hl.
    { unfold cloneDisabled in H. by destruct (isLoading (ui w)). }
    destruct (executeCloning_spec w) as [(m & _ & ->)|(_ & _ & ->)].
    + left. by split; [|left].
    + right; left. by eexists.
  - left. split; [apply resetForm_fetches|left].
    unfold resetForm. by destruct (truthy _).
  - left. split; [apply downloadHtml_fetches|left].
    unfold downloadHtml. destruct (cloneResult _); [|done].
    by destruct (truthy _).
  - left. by split; [|left].
  - left. by split; [|left].
  - left. by split; [|left].
  - left. by split; [|left].
  - destruct (scraped_cases r w) as [(m & ->)|(s & -> & ->)].
    + left. by split; [|right].
    + right; right. by exists s.
  - left. split; [apply cloned_fetches|right].
    by destruct (cloned_cases r w)
      as [(m & ->)|[(c & _ & _ & ->)|(c & _ & _ & ->)]].
  - left. by split; [|left].
Qed.

Lemma snoc_eq_middle {A} (l l1 l2 : list A) (x y : A) :
  l ++ [x] = l1 ++ y :: l2 ->
  (l2 = [] /\ l = l1 /\ x = y)
  \/ (exists l2', l2 = l2' ++ [x] /\ l = l1 ++ y :: l2').
Proof.
  destruct l2 as [|z l2 _] using rev_ind; intros H.
  - left. apply app_inj_tail in H as [-> ->]. done.
  - right. exists l2. change (l1 ++ y :: l2 ++ [z]) with (l1 ++ (y :: l2) ++ [z]) in H.
    rewrite app_assoc in H. apply app_inj_tail in H as [-> ->]. done.
Qed.

Lemma log_shape_Step (e : Event) (w w' : World) :
  log_shape w -> Step w e w' -> log_shape w'.
Proof.
  intros (Hmid & Hscr & Hcl) Hs.
  destruct (Step_requests _ _ _ Hs)
    as [[Hf Hp]|[(b & Hf & Hp & _)|(s & Hf & _ & Hp & Hp')]].
  - split_and!; rewrite Hf.
    + done.
    + intros Hq. apply Hscr. destruct Hp as [Hp|Hp]; congruence.
    + intros Hq. apply Hcl. destruct Hp as [Hp|Hp]; congruence.
  - split_and!; rewrite Hf.
    + intros l1 b' l2 [(_ & _ & [=])|(l2' & -> & Heq)]%snoc_eq_middle.
      by eapply Hmid.
    + intros _. by do 2 eexists.
    + intros Hq. congruence.
  - destruct (Hscr Hp) as (l0 & sb & Hl0).
    split_and!; rewrite Hf.
    + intros l1 b' l2 [(_ & <- & _)|(l2' & -> & Heq)]%snoc_eq_middle.
      * by do 2 eexists.
      * by eapply Hmid.
    + intros Hq. congruence.
    + intros _. exists l0, sb, (clone_body s). rewrite Hl0.
      by rewrite <- app_assoc.
Qed.

Lemma reachable_log_shape (w : World) : reachable w -> log_shape w.
Proof.
  revert w. apply reachable_ind.
  - split_and!; simpl; try done.
    intros l1 b l2 H. by destruct l1.
  - intros e w w' _ Hl Hs. by eapply log_shape_Step.
Qed.

(** ** A URL that is no longer the preview URL *)

Lemma Step_keeps_stale_url (e : Event) (w w' : World) (u : string) (b : Blob) :
  Inv w -> Step w e w' ->
  live (objectURLs w) !! u = Some b -> u <> previewUrl (ui w) ->
  live (objectURLs w') !! u = Some b /\ u <> previewUrl (ui w').
Proof.
  intros HI Hs Hu Hne.
  assert (u <> "") as Hnonempty.
  { destruct (inv_live _ HI u) as (n & _ & ->); [by eexists|].
    apply blob_url_nonempty. }
  assert (u <> blob_url (created (objectURLs w))) as Hfresh.
  { intros ->. by rewrite (fresh_not_live w HI) in Hu. }
  destruct Hs; try done.
  - by destruct (executeCloning_spec w) as [(m & _ & ->)|(_ & _ & ->)].
  - by destruct (executeCloning_spec w) as [(m & _ & ->)|(_ & _ & ->)].
  - unfold resetForm. destruct (truthy (previewUrl (ui w))); simpl; [|done].
    by rewrite lookup_delete_ne.
  - rewrite downloadHtml_ui.
    by destruct (downloadHtml_cases w HI) as [->|(c & _ & _ & ->)].
  - by destruct (scraped_cases r w) as [(m & ->)|(s & _ & ->)].
  - destruct (cloned_cases r w)
      as [(m & ->)|[(c & _ & _ & ->)|(c & _ & _ & ->)]]; simpl; try done.
    by rewrite lookup_insert_ne.
Qed.


(** ** Properties of the normalizer *)

Lemma addHttpsIfNeeded_with_scheme (s : string) :
  startsWith s "http://" = true \/ startsWith s "https://" = true ->
  addHttpsIfNeeded s = s.
Proof.
  unfold addHttpsIfNeeded. intros [-> | ->]; [done|]. by rewrite andb_false_r.
Qed.

(** X1: the result of [addHttpsIfNeeded] always starts with "http://" or
    "https://", so the function changes nothing when it is applied again. *)
Theorem X1_normalized_address_has_scheme (s : string) :
  ((exists t, addHttpsIfNeeded s = "http://" +:+ t) \/
   (exists t, addHttpsIfNeeded s = "https://" +:+ t))
  /\ addHttpsIfNeeded (addHttpsIfNeeded s) = addHttpsIfNeeded s.
Proof.
  assert (startsWith (addHttpsIfNeeded s) "http://" = true \/
          startsWith (addHttpsIfNeeded s) "https://" = true) as H.
  { unfold addHttpsIfNeeded.
    destruct (startsWith s "http://") eqn:E1; simpl; [by left|].
    destruct (startsWith s "https://") eqn:E2; simpl; [by right|].
    right. apply startsWith_app. }
  split; [|by apply addHttpsIfNeeded_with_scheme].
  destruct H as [H|H]; apply startsWith_spec in H; auto.
Qed.

(** ** Properties of the requests *)

(** X2: on every trace from the loaded page, every capture request issued
    carries an address that has passed [validateUrl] and is the normalized,
    trimmed form of a text that the user typed into the URL input, and it
    asks for a screenshot. *)
Theorem X2_capture_requests_are_validated (evs : list Event) (w : World)
    (b : ScrapeBody.t) :
  run evs init = Some w ->
  POST_scrape b ∈ fetches w ->
  validateUrl (ScrapeBody.url b) = true
  /\ ScrapeBody.capture_screenshot b = true
  /\ exists raw,
       ChangeUrl raw ∈ evs /\ trim raw <> "" /\
       ScrapeBody.url b = addHttpsIfNeeded (trim raw).
Proof.
  intros Hr Hb. destruct (tr_requests _ _ (run_TraceInv _ _ Hr) b Hb).
  done.
Qed.


(** X4: requests are issued one at a time.  In a reachable world in which a
    call is outstanding, [isLoading] is true, a run cannot be started and the
    address cannot be edited; the only event that issues a request is the
    successful capture response, which issues the reconstruct request. *)
Theorem X4_one_run_in_flight (e : Event) (w w' : World) :
  reachable w ->
  pending w <> None ->
  handle e w = Some w' ->
  isLoading (ui w) = true
  /\ cloneDisabled (ui w) = true
  /\ e <> PressEnter /\ e <> ClickClone /\ (forall v, e <> ChangeUrl v)
  /\ (fetches w' = fetches w \/
      exists scraped,
        pending w = Some AwaitScrape /\
        e = ScrapeResponse (Ok (Parsed scraped)) /\
        fetches w' = fetches w ++ [POST_clone (clone_body scraped)]).
Proof.
  intros HI%reachable_Inv Hp He.
  assert (isLoading (ui w) = true) as Hl.
  { rewrite (inv_loading _ HI). by destruct (pending w). }
  split; [done|]. split; [unfold cloneDisabled; by rewrite Hl|].
  split_and!.
  - intros ->. simpl in He. by rewrite Hl in He.
  - intros ->. simpl in He. by rewrite Hl in He.
  - intros v ->. simpl in He. by rewrite Hl in He.
  - apply handle_Step in He.
    destruct (Step_requests _ _ _ He)
      as [[Hf _]|[(b & _ & _ & Hl')|(s & Hf & -> & Hq & _)]].
    + by left.
    + congruence.
    + right. by exists s.
Qed.

(** X5: in every reachable world, each reconstruct request in the list of
    requests directly follows a capture request, and the outstanding call is
    the last request of the list: the capture request while the capture call
    is outstanding, the capture request and the reconstruct request while the
    reconstruct call is. *)
Theorem X5_request_log_shape (w : World) :
  reachable w ->
  (forall l1 b l2,
     fetches w = l1 ++ POST_clone b :: l2 ->
     exists l0 sb, l1 = l0 ++ [POST_scrape sb])
  /\ (pending w = Some AwaitScrape ->
      exists l0 sb, fetches w = l0 ++ [POST_scrape sb])
  /\ (pending w = Some AwaitClone ->
      exists l0 sb b, fetches w = l0 ++ [POST_scrape sb; POST_clone b]).
Proof. intros Hr. by apply reachable_log_shape. Qed.

(** X6: a run always ends.  Whatever the capture response is, it is handled,
    and either the run is over ([isLoading] is false and nothing is
    suspended) or the reconstruct call is outstanding; and whatever the
    reconstruct response is, the run is over after it. *)
Theorem X6_run_ends_after_the_responses (w : World)
    (r1 : Response ScrapedData.t) (r2 : Response CloneResult.t) :
  pending w = Some AwaitScrape ->
  exists w1,
    handle (ScrapeResponse r1) w = Some w1
    /\ ((isLoading (ui w1) = false /\ pending w1 = None)
        \/ (pending w1 = Some AwaitClone /\
            exists w2,
              handle (CloneResponse r2) w1 = Some w2 /\
              isLoading (ui w2) = false /\ pending w2 = None)).
Proof.
  intros Hp. eexists. split; [simpl; by rewrite Hp|].
  destruct (scraped_cases r1 w) as [(m & ->)|(s & _ & ->)]; [by left|].
  right. split; [done|]. eexists. split; [done|].
  by destruct (cloned_cases r2
    (fetch (POST_clone (clone_body s)) AwaitClone
       (setCurrentStep "🤖 AI analyzing design and generating HTML clone..."
          (setScrapedData (Some s) w))))
    as [(m & ->)|[(c & _ & _ & ->)|(c & _ & _ & ->)]].
Qed.

(** ** Properties of the object-URL store *)

(** X7: in every reachable world, every object URL created so far is either
    live or has been revoked exactly once: the number of URLs created is the
    number of revocations plus the number of live URLs, no URL is revoked
    twice, a revoked URL is not live, and every live URL holds non-empty
    markup of type text/html. *)
Theorem X7_object_urls_are_accounted_for (w : World) :
  reachable w ->
  created (objectURLs w) =
    (length (revoked (objectURLs w)) + size (live (objectURLs w)))%nat
  /\ NoDup (revoked (objectURLs w))
  /\ (forall u, u ∈ revoked (objectURLs w) -> live (objectURLs w) !! u = None)
  /\ (forall u b,
        live (objectURLs w) !! u = Some b ->
        type b = "text/html" /\ text b <> "" /\
        exists n, (n < created (objectURLs w))%nat /\ u = blob_url n).
Proof.
  intros Hr. pose proof (reachable_Inv _ Hr) as HI.
  pose proof (reachable_Inv2 _ Hr) as H2.
  split_and!.
  - apply (inv_count _ H2).
  - apply (inv_nodup _ HI).
  - intros u Hu. by apply (inv_revoked _ HI).
  - intros u b Hb. destruct (inv_blobs _ H2 u b Hb) as [Ht Hx].
    split_and!; [done..|]. apply (inv_live _ HI). by eexists.
Qed.

(** X8: in every reachable world, [openPreview] opens a window exactly when
    the preview URL is not empty, and the URL it opens is live, has never
    been revoked, and holds the markup of the stored reconstruct result. *)
Theorem X8_preview_opens_the_stored_markup (w : World) :
  reachable w ->
  (openPreview w = None <-> previewUrl (ui w) = "")
  /\ (forall u,
        openPreview w = Some u ->
        u = previewUrl (ui w) /\
        (u ∉ revoked (objectURLs w)) /\
        exists c,
          cloneResult (ui w) = Some c /\
          CloneResult.html_content c <> "" /\
          live (objectURLs w) !! u =
            Some {| text := CloneResult.html_content c;
                    type := "text/html" |}).
Proof.
  intros Hr. pose proof (reachable_Inv _ Hr) as HI.
  pose proof (reachable_Inv2 _ Hr) as H2.
  unfold openPreview. split.
  - destruct (truthy (previewUrl (ui w))) eqn:Ht.
    + apply truthy_true in Ht. split; [done|]. intros Hz. by destruct Ht.
    + apply truthy_false in Ht. done.
  - intros u Hu. destruct (truthy (previewUrl (ui w))) eqn:Ht; [|done].
    injection Hu as <-. apply truthy_true in Ht.
    destruct (inv_preview_blob _ H2 Ht) as (c & Hc & Hb).
    split_and!; [done| |].
    + intros Hin. destruct (inv_revoked _ HI _ Hin) as [_ Hn]. congruence.
    + exists c. split_and!; [done| |done].
      by destruct (inv_blobs _ H2 _ _ Hb) as [_ Hx].
Qed.

(** X9: in every reachable world, [downloadHtml] leaves the component state,
    the live object URLs, the requests and the suspended call as they are.
    Without a reconstruct result, or with empty markup, it does nothing at
    all; otherwise it creates one object URL and revokes that same URL, which
    is never the preview URL. *)
Theorem X9_download_leaves_no_object_url (w : World) :
  reachable w ->
  ui (downloadHtml w) = ui w
  /\ live (objectURLs (downloadHtml w)) = live (objectURLs w)
  /\ fetches (downloadHtml w) = fetches w
  /\ pending (downloadHtml w) = pending w
  /\ ((cloneResult (ui w) = None \/
       exists c, cloneResult (ui w) = Some c /\ CloneResult.html_content c = "") ->
      downloadHtml w = w)
  /\ (forall c,
        cloneResult (ui w) = Some c ->
        CloneResult.html_content c <> "" ->
        created (objectURLs (downloadHtml w)) = S (created (objectURLs w)) /\
        revoked (objectURLs (downloadHtml w)) =
          revoked (objectURLs w) ++ [blob_url (created (objectURLs w))] /\
        blob_url (created (objectURLs w)) <> previewUrl (ui w)).
Proof.
  intros Hr. pose proof (reachable_Inv _ Hr) as HI.
  split_and!.
  - apply downloadHtml_ui.
  - by destruct (downloadHtml_cases w HI) as [->|(c & _ & _ & ->)].
  - apply downloadHtml_fetches.
  - by destruct (downloadHtml_cases w HI) as [->|(c & _ & _ & ->)].
  - intros [Hn|(c & Hc & Hx)]; unfold downloadHtml; rewrite ?Hn, ?Hc; [done|].
    by rewrite Hx.
  - intros c Hc Hx.
    destruct (downloadHtml_cases w HI) as [Heq|(c' & Hc' & _ & ->)].
    + exfalso. unfold downloadHtml in Heq. rewrite Hc in Heq.
      rewrite (proj2 (truthy_true _) Hx) in Heq.
      apply (f_equal (fun x => created (objectURLs x))) in Heq.
      simpl in Heq. lia.
    + split_and!; [done..|]. intros Heq.
      assert (previewUrl (ui w) <> "") as Hne.
      { rewrite <- Heq. apply blob_url_nonempty. }
      destruct (inv_preview _ HI Hne) as [b Hb].
      rewrite <- Heq, (fresh_not_live w HI) in Hb. done.
Qed.

(** X10: an object URL that is live and is not the preview URL stays live,
    whatever happens afterwards: no later event revokes it or makes it the
    preview URL again. *)
Theorem X10_replaced_url_stays_live (w w' : World) (evs : list Event)
    (u : string) (b : Blob) :
  reachable w ->
  live (objectURLs w) !! u = Some b ->
  u <> previewUrl (ui w) ->
  run evs w = Some w' ->
  live (objectURLs w') !! u = Some b
  /\ u <> previewUrl (ui w')
  /\ (u ∉ revoked (objectURLs w')).
Proof.
  intros HI%reachable_Inv. revert w HI.
  induction evs as [|e evs IH]; intros w HI Hu Hne Hr; simpl in Hr.
  - injection Hr as <-. split_and!; [done..|].
    intros Hin. destruct (inv_revoked _ HI _ Hin) as [_ Hn]. congruence.
  - destruct (handle e w) as [w1|] eqn:He; [|done].
    pose proof (Inv_handle _ _ _ HI He) as HI1.
    apply handle_Step in He.
    destruct (Step_keeps_stale_url _ _ _ _ _ HI He Hu Hne) as [Hu1 Hne1].
    by apply (IH w1).
Qed.

(** ** Properties of what the page shows *)

(** X11: in every reachable world, while [isLoading] is true the results
    and the error are not rendered, the reconstruct result and the preview
    URL are empty, and the Clone Website button is disabled; and while the
    capture call is outstanding the Reset button is not rendered.  When the
    results are rendered, nothing is loading and the Reset button is
    rendered. *)
Theorem X11_loading_hides_results_and_error (w : World) :
  reachable w ->
  (isLoading (ui w) = true ->
   showsResults (ui w) = false /\
   showsError (ui w) = false /\
   showsFeatures (ui w) = false /\
   cloneDisabled (ui w) = true /\
   cloneResult (ui w) = None /\
   previewUrl (ui w) = "")
  /\ (pending w = Some AwaitScrape -> showsReset (ui w) = false)
  /\ (showsResults (ui w) = true ->
      isLoading (ui w) = false /\ pending w = None /\
      showsReset (ui w) = true /\ showsFeatures (ui w) = false).
Proof.
  intros Hr. pose proof (reachable_Inv _ Hr) as HI.
  pose proof (reachable_Inv2 _ Hr) as H2.
  pose proof (inv_loading _ HI) as Hload.
  split_and!.
  - intros Hl. rewrite Hl in Hload.
    assert (pending w <> None) as Hp by (by destruct (pending w)).
    destruct (inv_inflight _ HI Hp) as [Hc Hu].
    pose proof (inv_error_loading _ H2 Hp) as He.
    unfold showsResults, showsError, showsFeatures, cloneDisabled.
    rewrite Hl, Hc, He. split_and!; try done. apply andb_false_r.
  - intros Hp. unfold showsReset. rewrite (inv_capturing _ HI Hp).
    destruct (inv_inflight _ HI) as [-> _]; [by rewrite Hp|done].
  - intros Hs. unfold showsResults in Hs. apply andb_true_iff in Hs as [Hd Hc].
    assert (pending w = None) as Hp.
    { destruct (pending w) eqn:Hq; [|done].
      destruct (inv_inflight _ HI) as [Hc' _]; [by rewrite Hq|].
      by rewrite Hc' in Hc. }
    rewrite Hp in Hload. unfold showsReset, showsFeatures.
    rewrite Hload, Hd. done.
Qed.

(** X12: in every reachable world the error text is empty, one of the two
    validation messages, or "Failed to clone website: " followed by the
    message of a failure; and it is empty while a call is outstanding. *)
Theorem X12_error_texts (w : World) :
  reachable w ->
  (error (ui w) = "" \/
   error (ui w) = "Please enter a website URL" \/
   error (ui w) = "Please enter a valid URL (e.g., https://example.com)" \/
   exists message, error (ui w) = "Failed to clone website: " +:+ message)
  /\ (pending w <> None -> error (ui w) = "").
Proof.
  intros H2%reachable_Inv2. split; [apply (inv_error_shape _ H2)|].
  apply (inv_error_loading _ H2).
Qed.

(** X13: the timer that [executeCloning] sets on success is never
    cancelled.  When it is still pending and a new run is started, the timer
    fires during that run: the progress text of the new run is blanked and
    the Loading Status banner is not rendered, although [isLoading] is true
    and the capture call is outstanding. *)
Theorem X13_stale_timer_blanks_progress (w : World) :
  cloneDisabled (ui w) = false ->
  validateUrl (addHttpsIfNeeded (trim (url (ui w)))) = true ->
  (0 < timers w)%nat ->
  exists w1 w2,
    handle ClickClone w = Some w1
    /\ showsLoadingStatus (ui w1) = true
    /\ handle TimerFires w1 = Some w2
    /\ isLoading (ui w2) = true
    /\ pending w2 = Some AwaitScrape
    /\ currentStep (ui w2) = ""
    /\ showsLoadingStatus (ui w2) = false
    /\ fetches w2 = fetches w1.
Proof.
  intros Hd Hv Ht. pose proof Hd as Hd'. unfold cloneDisabled in Hd'.
  apply orb_false_iff in Hd' as [Hl Hne].
  apply negb_false_iff, truthy_true in Hne.
  exists (executeCloning w), (clearStep (executeCloning w)).
  split; [apply handle_Step; by constructor|].
  split; [by rewrite (validation_passes w Hne Hv)|].
  split; [apply handle_Step; constructor;
          by rewrite (validation_passes w Hne Hv)|].
  unfold clearStep, showsLoadingStatus.
  rewrite (validation_passes w Hne Hv). simpl. by split_and!.
Qed.

Lemma State_ext (a b : State) :
  url a = url b -> isLoading a = isLoading b ->
  scrapedData a = scrapedData b -> cloneResult a = cloneResult b ->
  error a = error b -> previewUrl a = previewUrl b ->
  currentStep a = currentStep b -> showAdvanced a = showAdvanced b ->
  viewportWidth a = viewportWidth b -> viewportHeight a = viewportHeight b ->
  waitTime a = waitTime b -> a = b.
Proof. destruct a, b; simpl; intros; by subst. Qed.

Lemma World_ext (a b : World) :
  ui a = ui b -> objectURLs a = objectURLs b -> fetches a = fetches b ->
  pending a = pending b -> timers a = timers b -> a = b.
Proof. destruct a, b; simpl; intros; by subst. Qed.

Lemma resetForm_cleared (w : World) :
  url (ui (resetForm w)) = ""
  /\ scrapedData (ui (resetForm w)) = None
  /\ cloneResult (ui (resetForm w)) = None
  /\ error (ui (resetForm w)) = ""
  /\ previewUrl (ui (resetForm w)) = ""
  /\ currentStep (ui (resetForm w)) = "".
Proof. unfold resetForm. by destruct (truthy (previewUrl (ui w))). Qed.

(** X14: [resetForm] leaves the advanced options, [isLoading], the
    suspended call, the requests and the timers as they are: it neither
    restores the defaults nor aborts a run.  After it the Reset button and
    the results are not rendered and the Clone Website button is disabled,
    and a second [resetForm] changes nothing. *)
Theorem X14_reset_keeps_options_and_run (w : World) :
  viewportWidth (ui (resetForm w)) = viewportWidth (ui w)
  /\ viewportHeight (ui (resetForm w)) = viewportHeight (ui w)
  /\ waitTime (ui (resetForm w)) = waitTime (ui w)
  /\ showAdvanced (ui (resetForm w)) = showAdvanced (ui w)
  /\ isLoading (ui (resetForm w)) = isLoading (ui w)
  /\ pending (resetForm w) = pending w
  /\ fetches (resetForm w) = fetches w
  /\ timers (resetForm w) = timers w
  /\ showsReset (ui (resetForm w)) = false
  /\ showsResults (ui (resetForm w)) = false
  /\ cloneDisabled (ui (resetForm w)) = true
  /\ handle ClickReset (resetForm w) = None
  /\ resetForm (resetForm w) = resetForm w.
Proof.
  pose proof (resetForm_cleared w) as (Hu & Hd & Hc & He & Hp & Hs).
  split_and!.
  1-8: unfold resetForm; by destruct (truthy (previewUrl (ui w))).
  - unfold showsReset. by rewrite Hd, Hc.
  - unfold showsResults. by rewrite Hd.
  - unfold cloneDisabled. rewrite Hu. apply orb_true_r.
  - simpl. by rewrite Hd, Hc.
  - unfold resetForm at 1. rewrite Hp. simpl.
    apply World_ext; try done. by apply State_ext.
Qed.

End MoreProperties.

(** ** The further properties at the sample traces *)

Lemma X2_witness :
  run (P := simplePlatform) trace_completed init = Some (after trace_completed)
  /\ POST_scrape sampleScrapeBody ∈ fetches (after trace_completed)
  /\ validateUrl (P := simplePlatform) (ScrapeBody.url sampleScrapeBody) = true
  /\ ScrapeBody.capture_screenshot sampleScrapeBody = true.
Proof.
  assert (run (P := simplePlatform) trace_completed init =
          Some (after trace_completed)) as Hr
    by (apply run_after; reflexivity).
  assert (POST_scrape sampleScrapeBody ∈ fetches (after trace_completed)) as Hb
    by (vm_compute; constructor).
  split; [exact Hr|]. split; [exact Hb|].
  destruct (@X2_capture_requests_are_validated simplePlatform _ _ _ Hr Hb)
    as (Hv & Hs & _).
  split; [exact Hv|exact Hs].
Defined.


Lemma X4_witness :
  reachable (P := simplePlatform) (after trace_capturing)
  /\ isLoading (ui (after trace_capturing)) = true
  /\ cloneDisabled (ui (after trace_capturing)) = true.
Proof.
  assert (reachable (P := simplePlatform) (after trace_capturing)) as Hr
    by (apply reachable_after; reflexivity).
  split; [exact Hr|].
  destruct (@X4_one_run_in_flight simplePlatform
              (ScrapeResponse (Ok (Parsed sampleScraped)))
              (after trace_capturing) (after trace_analyzing) Hr)
    as (Hl & Hd & _).
  - vm_compute. discriminate.
  - vm_compute. reflexivity.
  - split; [exact Hl|exact Hd].
Defined.

Lemma X5_witness :
  reachable (P := simplePlatform) (after trace_analyzing)
  /\ exists l0 sb b,
       fetches (after trace_analyzing) = l0 ++ [POST_scrape sb; POST_clone b].
Proof.
  assert (reachable (P := simplePlatform) (after trace_analyzing)) as Hr
    by (apply reachable_after; reflexivity).
  split; [exact Hr|].
  destruct (@X5_request_log_shape simplePlatform _ Hr) as (_ & _ & H).
  apply H. vm_compute. reflexivity.
Defined.

Lemma X6_witness :
  pending (after trace_capturing) = Some AwaitScrape
  /\ exists w1,
       handle (P := simplePlatform)
         (ScrapeResponse (Ok (Parsed sampleScraped))) (after trace_capturing) =
       Some w1
       /\ ((isLoading (ui w1) = false /\ pending w1 = None)
           \/ (pending w1 = Some AwaitClone /\
               exists w2,
                 handle (P := simplePlatform)
                   (CloneResponse (Rejected "Failed to fetch")) w1 = Some w2 /\
                 isLoading (ui w2) = false /\ pending w2 = None)).
Proof.
  assert (pending (after trace_capturing) = Some AwaitScrape) as Hp
    by (vm_compute; reflexivity).
  split; [exact Hp|].
  exact (@X6_run_ends_after_the_responses simplePlatform
           (after trace_capturing) (Ok (Parsed sampleScraped))
           (Rejected "Failed to fetch") Hp).
Defined.

Lemma X7_witness :
  reachable (P := simplePlatform) (after trace_second_run)
  /\ created (objectURLs (after trace_second_run)) =
       (length (revoked (objectURLs (after trace_second_run))) +
        size (live (objectURLs (after trace_second_run))))%nat
  /\ NoDup (revoked (objectURLs (after trace_second_run))).
Proof.
  assert (reachable (P := simplePlatform) (after trace_second_run)) as Hr
    by (apply reachable_after; reflexivity).
  split; [exact Hr|].
  destruct (@X7_object_urls_are_accounted_for simplePlatform _ Hr)
    as (Hc & Hn & _).
  split; [exact Hc|exact Hn].
Defined.

Lemma X8_witness :
  reachable (P := simplePlatform) (after trace_completed)
  /\ openPreview (after trace_completed) = Some "blob:0"
  /\ exists c,
       cloneResult (ui (after trace_completed)) = Some c /\
       CloneResult.html_content c <> "" /\
       live (objectURLs (after trace_completed)) !! "blob:0" =
         Some {| text := CloneResult.html_content c; type := "text/html" |}.
Proof.
  assert (reachable (P := simplePlatform) (after trace_completed)) as Hr
    by (apply reachable_after; reflexivity).
  assert (openPreview (after trace_completed) = Some "blob:0") as Ho
    by (vm_compute; reflexivity).
  split; [exact Hr|]. split; [exact Ho|].
  destruct (@X8_preview_opens_the_stored_markup simplePlatform _ Hr) as [_ H].
  destruct (H _ Ho) as (_ & _ & Hc). exact Hc.
Defined.

Lemma X9_witness :
  reachable (P := simplePlatform) (after trace_completed)
  /\ ui (downloadHtml (after trace_completed)) = ui (after trace_completed)
  /\ live (objectURLs (downloadHtml (after trace_completed))) =
       live (objectURLs (after trace_completed)).
Proof.
  assert (reachable (P := simplePlatform) (after trace_completed)) as Hr
    by (apply reachable_after; reflexivity).
  split; [exact Hr|].
  destruct (@X9_download_leaves_no_object_url simplePlatform _ Hr)
    as (Hu & Hl & _).
  split; [exact Hu|exact Hl].
Defined.

Lemma X10_witness :
  reachable (P := simplePlatform) (after (trace_completed ++ [ClickClone]))
  /\ previewUrl (ui (after (trace_completed ++ [ClickClone]))) = ""
  /\ live (objectURLs (after trace_second_run)) !! "blob:0" =
       Some {| text := "<p>hi</p>"; type := "text/html" |}
  /\ ("blob:0" ∉ revoked (objectURLs (after trace_second_run))).
Proof.
  assert (reachable (P := simplePlatform)
            (after (trace_completed ++ [ClickClone]))) as Hr
    by (apply reachable_after; reflexivity).
  split; [exact Hr|]. split; [vm_compute; reflexivity|].
  destruct (@X10_replaced_url_stays_live simplePlatform
              (after (trace_completed ++ [ClickClone]))
              (after trace_second_run)
              [ScrapeResponse (Ok (Parsed sampleScraped));
               CloneResponse (Ok (Parsed (sampleClone "<p>again</p>")));
               ClickReset]
              "blob:0" {| text := "<p>hi</p>"; type := "text/html" |} Hr)
    as (Hl & _ & Hn).
  - vm_compute. reflexivity.
  - vm_compute. discriminate.
  - vm_compute. reflexivity.
  - split; [exact Hl|exact Hn].
Defined.

Lemma X11_witness :
  reachable (P := simplePlatform) (after trace_capturing)
  /\ showsResults (ui (after trace_capturing)) = false
  /\ showsError (ui (after trace_capturing)) = false
  /\ showsReset (ui (after trace_capturing)) = false.
Proof.
  assert (reachable (P := simplePlatform) (after trace_capturing)) as Hr
    by (apply reachable_after; reflexivity).
  split; [exact Hr|].
  destruct (@X11_loading_hides_results_and_error simplePlatform _ Hr)
    as (Hl & Hc & _).
  destruct Hl as (Hres & Herr & _); [vm_compute; reflexivity|].
  split; [exact Hres|]. split; [exact Herr|].
  apply Hc. vm_compute. reflexivity.
Defined.

Lemma X12_witness :
  reachable (P := simplePlatform)
    (after (trace_capturing ++ [ScrapeResponse (Rejected "Failed to fetch")]))
  /\ (error (ui (after (trace_capturing ++
         [ScrapeResponse (Rejected "Failed to fetch")]))) = "" \/
      error (ui (after (trace_capturing ++
         [ScrapeResponse (Rejected "Failed to fetch")]))) =
        "Please enter a website URL" \/
      error (ui (after (trace_capturing ++
         [ScrapeResponse (Rejected "Failed to fetch")]))) =
        "Please enter a valid URL (e.g., https://example.com)" \/
      exists message,
        error (ui (after (trace_capturing ++
          [ScrapeResponse (Rejected "Failed to fetch")]))) =
        "Failed to clone website: " +:+ message).
Proof.
  assert (reachable (P := simplePlatform)
            (after (trace_capturing ++
               [ScrapeResponse (Rejected "Failed to fetch")]))) as Hr
    by (apply reachable_after; reflexivity).
  split; [exact Hr|].
  destruct (@X12_error_texts simplePlatform _ Hr) as [H _]. exact H.
Defined.

Lemma X13_witness :
  cloneDisabled (ui (after trace_completed)) = false
  /\ timers (after trace_completed) = 1%nat
  /\ exists w1 w2,
       handle (P := simplePlatform) ClickClone (after trace_completed) = Some w1
       /\ showsLoadingStatus (ui w1) = true
       /\ handle (P := simplePlatform) TimerFires w1 = Some w2
       /\ isLoading (ui w2) = true
       /\ pending w2 = Some AwaitScrape
       /\ currentStep (ui w2) = ""
       /\ showsLoadingStatus (ui w2) = false
       /\ fetches w2 = fetches w1.
Proof.
  split; [vm_compute; reflexivity|]. split; [vm_compute; reflexivity|].
  apply (@X13_stale_timer_blanks_progress simplePlatform (after trace_completed)).
  - vm_compute. reflexivity.
  - vm_compute. reflexivity.
  - vm_compute. lia.
Defined.
